(** * FalseBot: the Discord gateway session of [discordBot.py]

    A shallow embedding of the two classes of [discordBot.py],
    [discord_bot_connection] and [discord_chat_handler], and the properties
    of their message handling, registries and heartbeat loop.

    Modelling conventions.
    - Decoded JSON is the type [value]; Python dictionaries that are keyed
      by arbitrary objects ([guilds], the registries, [channelBuffer]) are
      finite maps over the hashable keys [hkey].
    - A method is a computation in the monad [M]: it threads the [world]
      (all instances plus the class attributes they share) and may raise a
      Python exception.  State written before an exception is raised stays
      written, as in Python.
    - Functions supplied by the user of the library (handlers, matchers) are
      external: a function is known by its identity [fid], calling it is
      recorded in the trace, and what it returns or raises is given by the
      oracle [ext_call].  They do not touch the session's own state.
    - Output ([print]), the websocket ([ws.send_json]), task creation
      ([asyncio.ensure_future]) and [asyncio.sleep] are recorded as
      [event]s of the world's trace, oldest first. *)

From stdpp Require Import base option list strings countable gmap.
From Stdlib Require Import ZArith.

Local Open Scope string_scope.
Local Open Scope Z_scope.
Local Open Scope list_scope.

(** ** Values *)

(** What [json.loads] produces, floats left out. *)
#[warnings="-register-all"]
Inductive value : Type :=
| VNone
| VBool (b : bool)
| VInt (z : Z)
| VStr (s : string)
| VList (l : list value)
| VDict (d : list (string * value)).

(** The exceptions the modelled code can raise. *)
Inductive exn : Type :=
| KeyError (k : value)
| TypeError
| IndexError
| OverflowError
| NameError (name : string)
| UserError (n : nat).

Definition res (A : Type) : Type := exn + A.

(** Keys of a Python [dict]: [None], numbers and strings hash; lists and
    dictionaries do not.  [True] and [1] are one key, as are [False] and
    [0]. *)
Inductive hkey : Type :=
| KNone
| KInt (z : Z)
| KStr (s : string).

#[global] Instance hkey_eq_dec : EqDecision hkey.
Proof. solve_decision. Defined.

Definition hkey_enc (k : hkey) : unit + Z + string :=
  match k with
  | KNone => inl (inl tt)
  | KInt z => inl (inr z)
  | KStr s => inr s
  end.

Definition hkey_dec (x : unit + Z + string) : hkey :=
  match x with
  | inl (inl _) => KNone
  | inl (inr z) => KInt z
  | inr s => KStr s
  end.

#[global] Instance hkey_countable : Countable hkey.
Proof.
  apply (inj_countable' hkey_enc hkey_dec).
  intros []; reflexivity.
Defined.

Definition to_key (v : value) : option hkey :=
  match v with
  | VNone => Some KNone
  | VBool b => Some (KInt (if b then 1 else 0))
  | VInt z => Some (KInt z)
  | VStr s => Some (KStr s)
  | VList _ | VDict _ => None
  end.

(** [hash_key v]: the key under which [v] is looked up, [TypeError] for an
    unhashable object. *)
Definition hash_key (v : value) : res hkey :=
  match to_key v with
  | Some k => inr k
  | None => inl TypeError
  end.

Fixpoint assoc (k : string) (d : list (string * value)) : option value :=
  match d with
  | [] => None
  | (k', v) :: d' => if String.eqb k k' then Some v else assoc k d'
  end.

(** [x[k]] for a string literal [k]. *)
Definition subscript (x : value) (k : string) : res value :=
  match x with
  | VDict d =>
      match assoc k d with
      | Some v => inr v
      | None => inl (KeyError (VStr k))
      end
  | _ => inl TypeError
  end.

(** Python truth value. *)
Definition truthy (v : value) : bool :=
  match v with
  | VNone => false
  | VBool b => b
  | VInt z => negb (z =? 0)
  | VStr s => negb (String.eqb s "")
  | VList l => match l with [] => false | _ => true end
  | VDict d => match d with [] => false | _ => true end
  end.

(** Python [==] on values. *)
Fixpoint py_eq (a b : value) {struct a} : bool :=
  match a, b with
  | VNone, VNone => true
  | VBool x, VBool y => Bool.eqb x y
  | VBool x, VInt y => (if x then 1 else 0) =? y
  | VInt x, VBool y => x =? (if y then 1 else 0)
  | VInt x, VInt y => x =? y
  | VStr x, VStr y => String.eqb x y
  | VList xs, VList ys =>
      (fix all2 (xs ys : list value) {struct xs} : bool :=
         match xs, ys with
         | [], [] => true
         | x :: xs', y :: ys' => py_eq x y && all2 xs' ys'
         | _, _ => false
         end) xs ys
  | VDict xs, VDict ys =>
      (length xs =? length ys)%nat &&
      (fix sub (xs : list (string * value)) {struct xs} : bool :=
         match xs with
         | [] => true
         | (k, x) :: xs' =>
             match assoc k ys with
             | Some y => py_eq x y && sub xs'
             | None => false
             end
         end) xs
  | _, _ => false
  end.

(** [for g in x]: the items iteration yields. *)
Fixpoint chars (s : string) : list value :=
  match s with
  | EmptyString => []
  | String c s' => VStr (String c EmptyString) :: chars s'
  end.

Definition py_iter (x : value) : res (list value) :=
  match x with
  | VList l => inr l
  | VDict d => inr (map (fun kv => VStr (fst kv)) d)
  | VStr s => inr (chars s)
  | _ => inl TypeError
  end.

(** [len(x)]. *)
Definition py_len (x : value) : res nat :=
  match x with
  | VList l => inr (length l)
  | VDict d => inr (length d)
  | VStr s => inr (String.length s)
  | _ => inl TypeError
  end.

(** ** Callables, output and the world *)

(** Identity of a function supplied by the library's user. *)
Definition fid : Type := nat.
Bind Scope nat_scope with fid.

(** What a registry of [discord_bot_connection] can hold: a user function,
    or the bound method [handle_message_create] of chat handler [ch], which
    [discord_chat_handler.__init__] registers.  A user function registered
    for a dispatch event is taken to be a coroutine function, as the
    [await] at its call requires. *)
Inductive callable : Type :=
| Fn (f : fid)
| BoundHandleMessageCreate (ch : nat).

(** The lines the code prints. *)
Inductive log_msg : Type :=
| WarnDispatchRereg (ev : value) (func : callable)
| WarnOpcodeRereg (opcode : value) (func : callable)
| WarnRepeatReady
| MyUsername (name : value)
| InGuilds (n : nat)
| HelloReceived (interval : value)
| FatalNoAck.

(** What a run leaves in the trace: a printed line; a payload connection
    [c] handed to [ws.send_json]; [heartbeat(interval)] of connection [c]
    scheduled by [asyncio.ensure_future]; [asyncio.sleep(ms / 1000)] in the
    heartbeat loop of [c], a sleep of [ms] milliseconds; a user function
    called on an argument; a user function returning. *)
Inductive event : Type :=
| EvPrint (m : log_msg)
| EvSend (c : nat) (payload : value)
| EvSpawnHeartbeat (c : nat) (interval : value)
| EvSleep (c : nat) (ms : Z)
| EvCall (f : fid) (arg : value)
| EvRet (f : fid) (r : value).

(** Instance attributes of a [discord_bot_connection].  [user], [session_id],
    [ack] and [sequence] read the class defaults ([None], [None], [True],
    [None]) until the instance assigns them. *)
Record connection : Type := Connection {
  botToken : string;
  user : value;
  session_id : value;
  ack : bool;
  sequence : value
}.

(** Instance attributes of a [discord_chat_handler]. *)
Record chat_handler : Type := ChatHandler {
  bot_connection : nat;
  bufferSize : Z
}.

(** An entry of [match_registry[0]]. *)
Record matcher_entry : Type := MatcherEntry {
  matcher : fid;
  no_self_respond : bool
}.

#[global] Instance matcher_entry_eq_dec : EqDecision matcher_entry.
Proof. solve_decision. Defined.

(** The world: the instances, and the class attributes.  [guilds],
    [dispatch_registry] and [message_registry] are attributes of the class
    [discord_bot_connection]; [match_registry] and [channelBuffer] are
    attributes of the class [discord_chat_handler].  No method rebinds them
    on an instance: every method mutates the one object of the class. *)
Record world : Type := World {
  conns : list connection;
  chats : list chat_handler;
  guilds : gmap hkey value;
  dispatch_registry : gmap hkey callable;
  message_registry : gmap hkey callable;
  match_registry : list matcher_entry * list fid;
  channelBuffer : gmap hkey (list value);
  trace : list event
}.

Definition empty_world : world :=
  World [] [] ∅ ∅ ∅ ([], []) ∅ [].

Definition set_conns (f : list connection → list connection) (w : world) : world :=
  World (f (conns w)) (chats w) (guilds w) (dispatch_registry w)
        (message_registry w) (match_registry w) (channelBuffer w)
        (trace w).

Definition set_chats (f : list chat_handler → list chat_handler) (w : world) : world :=
  World (conns w) (f (chats w)) (guilds w) (dispatch_registry w)
        (message_registry w) (match_registry w) (channelBuffer w)
        (trace w).

Definition set_guilds (f : gmap hkey value → gmap hkey value) (w : world) : world :=
  World (conns w) (chats w) (f (guilds w)) (dispatch_registry w)
        (message_registry w) (match_registry w) (channelBuffer w)
        (trace w).

Definition set_dispatch_registry
    (f : gmap hkey callable → gmap hkey callable) (w : world) : world :=
  World (conns w) (chats w) (guilds w) (f (dispatch_registry w))
        (message_registry w) (match_registry w) (channelBuffer w)
        (trace w).

Definition set_message_registry
    (f : gmap hkey callable → gmap hkey callable) (w : world) : world :=
  World (conns w) (chats w) (guilds w) (dispatch_registry w)
        (f (message_registry w)) (match_registry w) (channelBuffer w)
        (trace w).

Definition set_match_registry
    (f : list matcher_entry * list fid → list matcher_entry * list fid)
    (w : world) : world :=
  World (conns w) (chats w) (guilds w) (dispatch_registry w)
        (message_registry w) (f (match_registry w)) (channelBuffer w)
        (trace w).

Definition set_channelBuffer
    (f : gmap hkey (list value) → gmap hkey (list value)) (w : world) : world :=
  World (conns w) (chats w) (guilds w) (dispatch_registry w)
        (message_registry w) (match_registry w) (f (channelBuffer w))
        (trace w).

Definition set_trace (f : list event → list event) (w : world) : world :=
  World (conns w) (chats w) (guilds w) (dispatch_registry w)
        (message_registry w) (match_registry w) (channelBuffer w)
        (f (trace w)).

Definition set_user (u : value) (c : connection) : connection :=
  Connection (botToken c) u (session_id c) (ack c) (sequence c).

Definition set_session_id (s : value) (c : connection) : connection :=
  Connection (botToken c) (user c) s (ack c) (sequence c).

Definition set_ack (a : bool) (c : connection) : connection :=
  Connection (botToken c) (user c) (session_id c) a (sequence c).

(** ** The monad of methods *)

Definition M (A : Type) : Type := world → world * res A.

#[global] Instance M_ret : MRet M := λ A a w, (w, inr a).

#[global] Instance M_bind : MBind M := λ A B k m w,
  match m w with
  | (w', inr a) => k a w'
  | (w', inl e) => (w', inl e)
  end.

Definition raise {A} (e : exn) : M A := λ w, (w, inl e).

(** A pure step that may raise. *)
Definition lift {A} (r : res A) : M A := λ w, (w, r).

Definition gets {A} (f : world → A) : M A := λ w, (w, inr (f w)).

Definition modify (f : world → world) : M unit := λ w, (f w, inr tt).

Definition emit (e : event) : M unit := modify (set_trace (λ t, t ++ [e])).

Definition print (m : log_msg) : M unit := emit (EvPrint m).

Definition when (b : bool) (m : M unit) : M unit := if b then m else mret tt.

(** Attribute access through an instance reference.  A reference the model
    never created cannot occur in a run; it reads as [TypeError]. *)
Definition get_conn (c : nat) : M connection :=
  λ w, match conns w !! c with
       | Some x => (w, inr x)
       | None => (w, inl TypeError)
       end.

Definition update_conn (c : nat) (f : connection → connection) : M unit :=
  x ← get_conn c; modify (set_conns (λ l, <[c := f x]> l)).

Definition get_chat (ch : nat) : M chat_handler :=
  λ w, match chats w !! ch with
       | Some x => (w, inr x)
       | None => (w, inl TypeError)
       end.

(** ** Opcodes *)

Module opcodes.
Definition DISPATCH : Z := 0.
Definition HEARTBEAT : Z := 1.
Definition IDENTIFY : Z := 2.
Definition STATUS_UPDATE : Z := 3.
Definition VOICE_STATUS_UPDATE : Z := 4.
Definition VOICE_SERVER_PING : Z := 5.
Definition RESUME : Z := 6.
Definition RECONNECT : Z := 7.
Definition REQUEST_GUILD_MEMBERS : Z := 8.
Definition INVALID_SESSION : Z := 9.
Definition HELLO : Z := 10.
Definition HEARTBEAT_ACK : Z := 11.
End opcodes.

(** ** The methods *)

Section Methods.

(** What a user function returns or raises on an argument. *)
Variable ext_call : fid → value → res value.

(** Calling, and awaiting, a user function. *)
Definition call_fn (f : fid) (arg : value) : M value :=
  emit (EvCall f arg);;
  r ← lift (ext_call f arg);
  emit (EvRet f r);;
  mret r.

(** *** [discord_bot_connection]: construction and registration *)

(** [discord_bot_connection(botToken)]: the new instance's reference. *)
Definition new_connection (token : string) : M nat :=
  c ← gets (λ w, length (conns w));
  modify (set_conns (λ l, l ++ [Connection token VNone VNone true VNone]));;
  mret c.

(** [register_dispatch(event, func)] writes the [dispatch_registry] of the
    class, whichever instance [self] is. *)
Definition register_dispatch (self : nat) (ev : value) (func : callable) : M unit :=
  k ← lift (hash_key ev);
  reg ← gets dispatch_registry;
  when (bool_decide (is_Some (reg !! k))) (print (WarnDispatchRereg ev func));;
  modify (set_dispatch_registry (<[k := func]>)).

(** [register_message(opcode, func)], likewise on [message_registry]. *)
Definition register_message (self : nat) (opcode : value) (func : callable) : M unit :=
  k ← lift (hash_key opcode);
  reg ← gets message_registry;
  when (bool_decide (is_Some (reg !! k))) (print (WarnOpcodeRereg opcode func));;
  modify (set_message_registry (<[k := func]>)).

(** *** [discord_chat_handler] *)

(** [discord_chat_handler(bot_connection, bufferSize=...)]. *)
Definition new_chat_handler (bc : nat) (size : option Z) : M nat :=
  ch ← gets (λ w, length (chats w));
  register_dispatch bc (VStr "MESSAGE_CREATE") (BoundHandleMessageCreate ch);;
  modify (set_chats (λ l, l ++ [ChatHandler bc (default 3 size)]));;
  mret ch.

(** [register_match(matcher, func, no_self_respond)].  The warning's
    f-string reads the name [expression], which is bound nowhere. *)
Definition register_match (self : nat) (m : fid) (func : fid) (nsr : bool) : M unit :=
  let entry := MatcherEntry m nsr in
  reg ← gets match_registry;
  when (bool_decide (entry ∈ reg.1)) (raise (NameError "expression"));;
  modify (set_match_registry (λ r, (r.1 ++ [entry], r.2)));;
  modify (set_match_registry (λ r, (r.1, r.2 ++ [func]))).

(** [self.channelBuffer[cid].pop(0)]. *)
Definition buffer_pop0 (cid : value) (k : hkey) : M unit :=
  buf ← gets channelBuffer;
  match buf !! k with
  | Some (_ :: l) => modify (set_channelBuffer (<[k := l]>))
  | Some [] => raise IndexError
  | None => raise (KeyError cid)
  end.

(** [self.channelBuffer[cid].append(message)]. *)
Definition buffer_append (cid : value) (k : hkey) (message : value) : M unit :=
  buf ← gets channelBuffer;
  match buf !! k with
  | Some l => modify (set_channelBuffer (<[k := l ++ [message]]>))
  | None => raise (KeyError cid)
  end.

(** The first part of [handle_message_create]: the message enters the
    buffer of its channel, unless buffering is disabled. *)
Definition buffer_message (self : nat) (message : value) : M unit :=
  h ← get_chat self;
  when (0 <? bufferSize h)
    (cid ← lift (subscript message "channel_id");
     k ← lift (hash_key cid);
     buf ← gets channelBuffer;
     when (negb (bool_decide (is_Some (buf !! k))))
       (modify (set_channelBuffer
                  (<[k := replicate (Z.to_nat (bufferSize h)) VNone]>)));;
     buffer_pop0 cid k;;
     buffer_append cid k message).

(** The [for i, matcher in enumerate(self.match_registry[0])] loop, from
    index [i] on. *)
Fixpoint match_loop (self : nat) (message : value) (i : nat)
    (ms : list matcher_entry) : M unit :=
  match ms with
  | [] => mret tt
  | m :: ms' =>
      author ← lift (subscript message "author");
      aid ← lift (subscript author "id");
      h ← get_chat self;
      bc ← get_conn (bot_connection h);
      uid ← lift (subscript (user bc) "id");
      (if py_eq aid uid && no_self_respond m then mret tt
       else
         r ← call_fn (matcher m) message;
         if truthy r then
           reg ← gets match_registry;
           match reg.2 !! i with
           | Some f => call_fn f message;; mret tt
           | None => raise IndexError
           end
         else mret tt);;
      match_loop self message (S i) ms'
  end.

(** [handle_message_create(message)]: buffer, then try every matcher. *)
Definition handle_message_create (self : nat) (message : value) : M unit :=
  buffer_message self message;;
  reg ← gets match_registry;
  match_loop self message 0%nat reg.1.

(** Calling, and awaiting, an entry of a connection's registry. *)
Definition call (f : callable) (arg : value) : M unit :=
  match f with
  | Fn g => call_fn g arg;; mret tt
  | BoundHandleMessageCreate ch => handle_message_create ch arg
  end.

(** *** [discord_bot_connection]: the gateway *)

(** [send_payload(op, d)], with [s] and [t] left at their default. *)
Definition send_payload (self : nat) (op : Z) (d : value) : M unit :=
  emit (EvSend self
          (VDict [("op", VInt op); ("d", d); ("s", VNone); ("t", VNone)])).

(** The least magnitude of an integer whose quotient by 1000 is too large
    for a float: the quotient then rounds to [2^1024]. *)
Definition division_overflow : Z := 1000 * (2 ^ 1024 - 2 ^ 970).

(** [interval / 1000] needs a number, and a quotient that is a float:
    anything but a number raises [TypeError], an integer of magnitude
    [division_overflow] or more raises [OverflowError]. *)
Definition as_number (v : value) : res Z :=
  match v with
  | VInt z =>
      if Z.abs z <? division_overflow then inr z else inl OverflowError
  | VBool b => inr (if b then 1 else 0)
  | _ => inl TypeError
  end.

(** One turn of the [while True] loop of [heartbeat]. *)
Definition heartbeat_iter (self : nat) (interval : value) : M unit :=
  x ← get_conn self;
  when (negb (ack x)) (print FatalNoAck);;
  send_payload self opcodes.HEARTBEAT (sequence x);;
  update_conn self (set_ack false);;
  ms ← lift (as_number interval);
  emit (EvSleep self ms).

(** Where the coroutine [heartbeat] stands inside a turn: before the test
    of [ack], before [self.ack = False], before the sleep. *)
Inductive hb_point : Type :=
| AtCheck
| AtReset
| AtSleep.

(** The statements of a turn, one program point at a time: the test of
    [ack] with the send it leads to, then the reset of [ack], then the
    sleep, which leads back to the test. *)
Definition hb_step (self : nat) (interval : value) (pc : hb_point) : M hb_point :=
  match pc with
  | AtCheck =>
      x ← get_conn self;
      when (negb (ack x)) (print FatalNoAck);;
      send_payload self opcodes.HEARTBEAT (sequence x);;
      mret AtReset
  | AtReset =>
      update_conn self (set_ack false);;
      mret AtSleep
  | AtSleep =>
      ms ← lift (as_number interval);
      emit (EvSleep self ms);;
      mret AtCheck
  end.

(** The first [n] turns of [heartbeat]. *)
Fixpoint heartbeat (n : nat) (self : nat) (interval : value) : M unit :=
  match n with
  | O => mret tt
  | S n' => heartbeat_iter self interval;; heartbeat n' self interval
  end.

(** [asyncio.ensure_future(self.heartbeat(interval))]. *)
Definition ensure_future_heartbeat (self : nat) (interval : value) : M unit :=
  emit (EvSpawnHeartbeat self interval).

(** The [for g in event['guilds']] loop of the READY branch. *)
Fixpoint store_guilds (gs : list value) : M unit :=
  match gs with
  | [] => mret tt
  | g :: gs' =>
      gid ← lift (subscript g "id");
      k ← lift (hash_key gid);
      modify (set_guilds (<[k := g]>));;
      store_guilds gs'
  end.

(** The READY branch of [handle_dispatch]. *)
Definition dispatch_ready (self : nat) (ev : value) : M unit :=
  x ← get_conn self;
  when (truthy (session_id x)) (print WarnRepeatReady);;
  u ← lift (subscript ev "user");
  update_conn self (set_user u);;
  sid ← lift (subscript ev "session_id");
  update_conn self (set_session_id sid);;
  gs ← lift (subscript ev "guilds");
  items ← lift (py_iter gs);
  store_guilds items;;
  x ← get_conn self;
  name ← lift (subscript (user x) "username");
  print (MyUsername name);;
  gs ← lift (subscript ev "guilds");
  n ← lift (py_len gs);
  print (InGuilds n).

(** The GUILD_CREATE branch of [handle_dispatch].  The warning's f-string
    reads the name [guild], which is bound nowhere. *)
Definition dispatch_guild_create (self : nat) (ev : value) : M unit :=
  gid ← lift (subscript ev "id");
  k ← lift (hash_key gid);
  gs ← gets guilds;
  g ← lift (match gs !! k with
            | Some g => inr g
            | None => inl (KeyError gid)
            end);
  un ← lift (subscript g "unavailable");
  when (negb (truthy un)) (raise (NameError "guild"));;
  modify (set_guilds (<[k := ev]>)).

(** The [if]/[elif] chain of [handle_dispatch] on the event type. *)
Definition handle_event (self : nat) (eventType ev : value) : M unit :=
  if py_eq eventType (VStr "READY") then dispatch_ready self ev
  else if py_eq eventType (VStr "GUILD_CREATE") then
    dispatch_guild_create self ev
  else mret tt.

(** [handle_dispatch(message)]: the built-in handling of the event, then
    the function registered for it. *)
Definition handle_dispatch (self : nat) (message : value) : M unit :=
  eventType ← lift (subscript message "t");
  ev ← lift (subscript message "d");
  handle_event self eventType ev;;
  k ← lift (hash_key eventType);
  reg ← gets dispatch_registry;
  match reg !! k with
  | Some f => call f ev
  | None => mret tt
  end.

(** The [if]/[elif] chain of [handle_message] on the opcode.  In the
    DISPATCH branch [message['s']] is bound to the local name [sequence]; in
    the last branch the f-string reads the name [op], which is bound
    nowhere. *)
Definition handle_opcode (self : nat) (message opcode : value) : M unit :=
  if py_eq opcode (VInt opcodes.DISPATCH) then
    _ ← lift (subscript message "s");
    handle_dispatch self message
  else if py_eq opcode (VInt opcodes.HEARTBEAT) then mret tt
  else if py_eq opcode (VInt opcodes.RECONNECT) then mret tt
  else if py_eq opcode (VInt opcodes.INVALID_SESSION) then mret tt
  else if py_eq opcode (VInt opcodes.HELLO) then
    d ← lift (subscript message "d");
    interval ← lift (subscript d "heartbeat_interval");
    print (HelloReceived interval);;
    ensure_future_heartbeat self interval
  else if py_eq opcode (VInt opcodes.HEARTBEAT_ACK) then
    update_conn self (set_ack true)
  else raise (NameError "op").

(** [handle_message(message)]: the built-in handling of the opcode, then
    the function registered for it. *)
Definition handle_message (self : nat) (message : value) : M unit :=
  opcode ← lift (subscript message "op");
  handle_opcode self message opcode;;
  k ← lift (hash_key opcode);
  reg ← gets message_registry;
  match reg !! k with
  | Some f => call f message
  | None => mret tt
  end.

(** [identify()]; [now] is the reading of [time.time()]. *)
Definition identify (self : nat) (now : value) : M unit :=
  x ← get_conn self;
  send_payload self opcodes.IDENTIFY
    (VDict [("token", VStr (botToken x));
            ("properties", VDict [("$os", VStr "linux");
                                  ("$browser", VStr "aiohttp");
                                  ("$device", VStr "aiohttp")]);
            ("compress", VBool false);
            ("presence", VDict [("since", now);
                                ("status", VStr "online");
                                ("afk", VBool false)])]).

(** The [async for msg in self.ws] loop over the messages the socket
    delivers before it closes. *)
Fixpoint read_loop (self : nat) (inbox : list value) : M unit :=
  match inbox with
  | [] => mret tt
  | msg :: inbox' => handle_message self msg;; read_loop self inbox'
  end.

(** [start()]: [response] is the decoded body of [GET /gateway/bot]. *)
Definition start (self : nat) (response now : value) (inbox : list value) : M unit :=
  _ ← lift (subscript response "url");
  identify self now;;
  read_loop self inbox.

End Methods.

(** ** Relations between the worlds before and after a method *)

(** [preserves R m]: whatever [m] does, and whether or not it raises, the
    world it leaves is related by [R] to the world it started in. *)
Definition preserves {A} (R : relation world) (m : M A) : Prop :=
  ∀ w, R w (m w).1.

(** No connection's [sequence] attribute was written. *)
Definition same_sequence (w w' : world) : Prop :=
  sequence <$> conns w' = sequence <$> conns w.

(** No instance attribute of a connection was written. *)
Definition same_conns (w w' : world) : Prop := conns w' = conns w.

Definition is_send (e : event) : bool :=
  match e with EvSend _ _ => true | _ => false end.

(** The two keyed registries were not written. *)
Definition same_registries (w w' : world) : Prop :=
  dispatch_registry w' = dispatch_registry w ∧
  message_registry w' = message_registry w.

(** The trace only grew, and by events that satisfy [P]. *)
Definition grows (P : event → bool) (w w' : world) : Prop :=
  ∃ evs, trace w' = trace w ++ evs ∧ Forall (λ e, P e = true) evs.

Definition is_call (e : event) : bool :=
  match e with EvCall _ _ | EvRet _ _ => true | _ => false end.

Definition not_send (e : event) : bool := negb (is_send e).

(** ** Envelopes and scenarios *)

(** The payload [send_payload] hands to the socket. *)
Definition envelope (op : Z) (d : value) : value :=
  VDict [("op", VInt op); ("d", d); ("s", VNone); ("t", VNone)].

(** What one turn of [heartbeat] sends. *)
Definition heartbeat_envelope (seq : value) : value :=
  envelope opcodes.HEARTBEAT seq.

(** What [identify] sends. *)
Definition identify_envelope (token : string) (now : value) : value :=
  envelope opcodes.IDENTIFY
    (VDict [("token", VStr token);
            ("properties", VDict [("$os", VStr "linux");
                                  ("$browser", VStr "aiohttp");
                                  ("$device", VStr "aiohttp")]);
            ("compress", VBool false);
            ("presence", VDict [("since", now);
                                ("status", VStr "online");
                                ("afk", VBool false)])]).

(** The payloads sent, in order. *)
Definition sent (t : list event) : list value :=
  omap (λ e, match e with EvSend _ p => Some p | _ => None end) t.

(** An envelope as the gateway delivers it. *)
Definition received (op : Z) (d s t : value) : value :=
  VDict [("op", VInt op); ("d", d); ("s", s); ("t", t)].

(** User functions that all return [None]. *)
Definition quiet_ext : fid → value → res value := λ _ _, inr VNone.

(** One connection, just constructed. *)
Definition fresh_session : world := (new_connection "T" empty_world).1.

(** Two connections, just constructed. *)
Definition two_sessions : world := (new_connection "T2" fresh_session).1.

Definition gateway_response : value := VDict [("url", VStr "wss://gateway")].

Definition hello_41250 : value :=
  received 10 (VDict [("heartbeat_interval", VInt 41250)]) VNone VNone.

Definition typing_s5 : value :=
  received 0 (VDict [("channel_id", VStr "C1")]) (VInt 5) (VStr "TYPING_START").

Definition account (uid name : string) : value :=
  VDict [("id", VStr uid); ("username", VStr name)].

Definition ready_event (uid name sid : string) : value :=
  VDict [("user", account uid name); ("session_id", VStr sid);
         ("guilds", VList [])].

Definition ready (s : Z) (uid name sid : string) : value :=
  received 0 (ready_event uid name sid) (VInt s) (VStr "READY").

Definition guild_create (gid name : string) : value :=
  received 0 (VDict [("id", VStr gid); ("name", VStr name)]) (VInt 2)
    (VStr "GUILD_CREATE").

Definition chat_message (channel author content : string) : value :=
  VDict [("channel_id", VStr channel);
         ("author", VDict [("id", VStr author)]);
         ("content", VStr content)].

(** A connection with a chat handler attached, before any READY. *)
Definition unready_chat : world :=
  (new_chat_handler 0 None fresh_session).1.

(** The same after READY named the bot's own account [U0]. *)
Definition ready_chat : world :=
  (handle_message quiet_ext 0 (ready 1 "U0" "falsebot" "S1") unready_chat).1.

(** The unready handler with one matcher registered: function 1 guards
    function 2. *)
Definition unready_matching : world :=
  (register_match 0 1 2 true unready_chat).1.

(** Three matchers on the ready handler: 1 guards 2, 3 guards 4, 5 guards
    6; under [abc_ext] the first and the last match every message. *)
Definition abc_chat : world :=
  (register_match 0 5 6 true
     (register_match 0 3 4 true
        (register_match 0 1 2 true ready_chat).1).1).1.

Definition abc_ext : fid → value → res value :=
  λ f _, match f with
         | 1%nat => inr (VBool true)
         | 5%nat => inr (VStr "yes")
         | _ => inr VNone
         end.

(** The bot's connection once [ready_chat] has processed its READY. *)
Definition ready_connection : connection :=
  Connection "T" (account "U0" "falsebot") (VStr "S1") true VNone.

(** A session with a handler bound to the event TYPING_START and one bound
    to opcode 1. *)
Definition registered_once : world :=
  (register_message 0 (VInt 1) (Fn 8)
     (register_dispatch 0 (VStr "TYPING_START") (Fn 7) fresh_session).1).1.


(** Two connections, a chat handler on each (buffer sizes 3 and 2), after
    the first handler buffered a message of channel [C1]. *)
Definition two_chats : world :=
  (buffer_message 0 (chat_message "C1" "U1" "hello")
     (new_chat_handler 1 (Some 2)
        (new_chat_handler 0 None two_sessions).1).1).1.

(** ** Further relations and runs *)

(** No channel buffer was written. *)
Definition same_buffers (w w' : world) : Prop :=
  channelBuffer w' = channelBuffer w.

(** The chat handler receiving the messages [ms] one after another. *)
Fixpoint deliver (ext_call : fid → value → res value) (self : nat)
    (ms : list value) : M unit :=
  match ms with
  | [] => mret tt
  | m :: ms' => handle_message_create ext_call self m;; deliver ext_call self ms'
  end.

(** Two matchers on the ready handler: 1 guards 2 and skips the bot's own
    messages, 5 guards 6 and does not. *)
Definition guarded_chat : world :=
  (register_match 0 5 6 false (register_match 0 1 2 true ready_chat).1).1.

(** User functions of which function 1 raises. *)
Definition failing_ext : fid → value → res value :=
  λ f _, match f with
         | 1%nat => inl (UserError 1)
         | _ => inr VNone
         end.

(** User functions of which function 1 returns [True] and function 2
    raises. *)
Definition bad_handler_ext : fid → value → res value :=
  λ f _, match f with
         | 1%nat => inr (VBool true)
         | 2%nat => inl (UserError 2)
         | _ => inr VNone
         end.

(** What a turn of the heartbeat loop leaves in the trace when no
    HEARTBEAT_ACK arrived since the turn before. *)
Definition unacknowledged_turn (c : nat) (seq : value) (ms : Z) : list event :=
  [EvPrint FatalNoAck; EvSend c (heartbeat_envelope seq); EvSleep c ms].

Definition heartbeat_ack : value := received 11 VNone VNone VNone.

(** What a Hello leaves in the trace. *)
Definition hello_events (c : nat) (interval : value) : list event :=
  [EvPrint (HelloReceived interval); EvSpawnHeartbeat c interval].

(** A session with a handler bound to the event TYPING_START and one bound
    to opcode 0. *)
Definition dispatch_registered : world :=
  (register_message 0 (VInt 0) (Fn 8)
     (register_dispatch 0 (VStr "TYPING_START") (Fn 7) fresh_session).1).1.

(** The guilds known before are known after. *)
Definition guilds_kept (w w' : world) : Prop :=
  dom (guilds w) ⊆ dom (guilds w').

(** [g['id']] exists and hashes to [k]. *)
Definition guild_keyed (g : value) (k : hkey) : Prop :=
  ∃ gid, subscript g "id" = inr gid ∧ to_key gid = Some k.

(** A guild as READY lists it. *)
Definition stub_guild (gid : string) (unavailable : bool) : value :=
  VDict [("id", VStr gid); ("unavailable", VBool unavailable)].

Definition ready_two_guilds : value :=
  received 0
    (VDict [("user", account "U0" "falsebot"); ("session_id", VStr "S1");
            ("guilds", VList [stub_guild "G1" true; stub_guild "G2" false])])
    (VInt 1) (VStr "READY").

(** A session after a READY that listed guild [G1] as unavailable and guild
    [G2] as available. *)
Definition guilds_known : world :=
  (handle_dispatch quiet_ext 0 ready_two_guilds fresh_session).1.


(** * Properties *)

(** ** Reasoning about methods *)

(** Running a sequence of two steps. *)
Lemma run_bind {A B} (m : M A) (k : A → M B) (w : world) :
  (m ≫= k) w =
  match m w with
  | (w', inr a) => k a w'
  | (w', inl e) => (w', inl e)
  end.
Proof. reflexivity. Qed.

Lemma run_bind_ok {A B} (m : M A) (k : A → M B) w w' a :
  m w = (w', inr a) → (m ≫= k) w = k a w'.
Proof. intros H. rewrite run_bind, H. reflexivity. Qed.

Lemma run_bind_err {A B} (m : M A) (k : A → M B) w w' e :
  m w = (w', inl e) → (m ≫= k) w = (w', inl e).
Proof. intros H. rewrite run_bind, H. reflexivity. Qed.

Section Preserves.
Context (R : relation world) `{!PreOrder R}.

Lemma preserves_ret {A} (a : A) : preserves R (mret a).
Proof. intros w. reflexivity. Qed.

Lemma preserves_raise {A} (e : exn) : preserves R (@raise A e).
Proof. intros w. reflexivity. Qed.

Lemma preserves_lift {A} (r : res A) : preserves R (lift r).
Proof. intros w. reflexivity. Qed.

Lemma preserves_gets {A} (f : world → A) : preserves R (gets f).
Proof. intros w. reflexivity. Qed.

Lemma preserves_get_conn c : preserves R (get_conn c).
Proof. intros w. unfold get_conn. destruct (conns w !! c); reflexivity. Qed.

Lemma preserves_get_chat c : preserves R (get_chat c).
Proof. intros w. unfold get_chat. destruct (chats w !! c); reflexivity. Qed.

Lemma preserves_bind {A B} (m : M A) (k : A → M B) :
  preserves R m → (∀ a, preserves R (k a)) → preserves R (m ≫= k).
Proof.
  intros Hm Hk w. rewrite run_bind.
  specialize (Hm w). destruct (m w) as [w' [e|a]]; simpl in *.
  - exact Hm.
  - etransitivity; [exact Hm | apply Hk].
Qed.

Lemma preserves_when (b : bool) (m : M unit) :
  preserves R m → preserves R (when b m).
Proof. intros Hm. destruct b; [exact Hm | apply preserves_ret]. Qed.

Lemma preserves_modify (f : world → world) :
  (∀ w, R w (f w)) → preserves R (modify f).
Proof. intros Hf w. apply Hf. Qed.
End Preserves.

(** One step of a proof that a method preserves a relation: split a
    sequence, or case on what a branch tests. *)
Ltac preserves_step :=
  lazymatch goal with
  | |- preserves _ (mbind _ _) => apply preserves_bind; [ apply _ | | intros ? ]
  | |- preserves _ (mret _) => apply preserves_ret; apply _
  | |- preserves _ (raise _) => apply preserves_raise; apply _
  | |- preserves _ (lift _) => apply preserves_lift; apply _
  | |- preserves _ (gets _) => apply preserves_gets; apply _
  | |- preserves _ (get_conn _) => apply preserves_get_conn; apply _
  | |- preserves _ (get_chat _) => apply preserves_get_chat; apply _
  | |- preserves _ (when _ _) => apply preserves_when; [ apply _ | ]
  | |- preserves _ (if ?b then _ else _) => destruct b
  | |- preserves _ (match ?x with _ => _ end) => destruct x
  end.

#[global] Instance same_sequence_preorder : PreOrder same_sequence.
Proof.
  split.
  - intros w. reflexivity.
  - intros w1 w2 w3 H1 H2. unfold same_sequence in *. congruence.
Qed.

#[global] Instance same_conns_preorder : PreOrder same_conns.
Proof.
  split.
  - intros w. reflexivity.
  - intros w1 w2 w3 H1 H2. unfold same_conns in *. congruence.
Qed.

#[global] Instance grows_preorder P : PreOrder (grows P).
Proof.
  split.
  - intros w. exists []. split; [|constructor].
    symmetry. apply app_nil_r.
  - intros w1 w2 w3 (e1 & H1 & F1) (e2 & H2 & F2).
    exists (e1 ++ e2). split.
    + rewrite H2, H1. symmetry. apply app_assoc.
    + apply Forall_app. split; assumption.
Qed.

(** Unfolding the monad down to the world it runs on. *)
Ltac munfold :=
  unfold update_conn, send_payload, ensure_future_heartbeat, emit, print,
    modify, when, get_conn, get_chat, lift, gets, raise,
    mbind, M_bind, mret, M_ret in *.

Lemma preserves_weaken {A} (R R' : relation world) (m : M A) :
  (∀ w w', R w w' → R' w w') → preserves R m → preserves R' m.
Proof. intros HR Hm w. apply HR, Hm. Qed.

(** *** What grows the trace, and by which events *)

Lemma grows_emit P e : P e = true → preserves (grows P) (emit e).
Proof.
  intros He w. exists [e]. split; [reflexivity|].
  repeat constructor. exact He.
Qed.

Lemma grows_modify P f :
  (∀ w, trace (f w) = trace w) → preserves (grows P) (modify f).
Proof.
  intros Hf w. exists []. simpl. rewrite Hf, app_nil_r.
  split; [reflexivity|constructor].
Qed.

Lemma grows_update_conn P c f : preserves (grows P) (update_conn c f).
Proof.
  unfold update_conn. repeat preserves_step. apply grows_modify. reflexivity.
Qed.

Ltac grows_leaf :=
  first [ apply grows_update_conn
        | apply grows_modify; reflexivity
        | apply grows_emit; reflexivity ].

Lemma is_call_not_send e : is_call e = true → not_send e = true.
Proof. destruct e; unfold not_send; simpl; congruence. Qed.

(** *** What leaves the connections alone *)

Lemma same_conns_modify f :
  (∀ w, conns (f w) = conns w) → preserves same_conns (modify f).
Proof. intros Hf w. apply Hf. Qed.

Lemma same_conns_emit e : preserves same_conns (emit e).
Proof. apply same_conns_modify. reflexivity. Qed.

Ltac same_conns_leaf :=
  first [ apply same_conns_emit | apply same_conns_modify; reflexivity ].

Lemma same_conns_sequence w w' : same_conns w w' → same_sequence w w'.
Proof. unfold same_conns, same_sequence. intros ->. reflexivity. Qed.

Lemma same_sequence_update_conn c f :
  (∀ x, sequence (f x) = sequence x) →
  preserves same_sequence (update_conn c f).
Proof.
  intros Hf w. unfold same_sequence. munfold.
  destruct (conns w !! c) as [x|] eqn:Hc; simpl; [|reflexivity].
  rewrite list_fmap_insert, Hf. apply list_insert_id.
  rewrite list_lookup_fmap, Hc. reflexivity.
Qed.

Section MethodFrames.
Variable ext_call : fid → value → res value.

Lemma grows_call_fn P f arg :
  (∀ e, is_call e = true → P e = true) →
  preserves (grows P) (call_fn ext_call f arg).
Proof.
  intros HP. unfold call_fn.
  repeat preserves_step; apply grows_emit, HP; reflexivity.
Qed.

Lemma grows_match_loop P self message ms i :
  (∀ e, is_call e = true → P e = true) →
  preserves (grows P) (match_loop ext_call self message i ms).
Proof.
  intros HP. revert i. induction ms as [|m ms IH]; intros i; simpl.
  - preserves_step.
  - repeat preserves_step; try (apply grows_call_fn; assumption); apply IH.
Qed.

Lemma grows_buffer_message P self message :
  preserves (grows P) (buffer_message self message).
Proof.
  unfold buffer_message, buffer_pop0, buffer_append.
  repeat preserves_step; grows_leaf.
Qed.

Lemma grows_handle_message_create P self message :
  (∀ e, is_call e = true → P e = true) →
  preserves (grows P) (handle_message_create ext_call self message).
Proof.
  intros HP. unfold handle_message_create.
  repeat preserves_step.
  - apply grows_buffer_message.
  - apply grows_match_loop; assumption.
Qed.

Lemma grows_call P f arg :
  (∀ e, is_call e = true → P e = true) →
  preserves (grows P) (call ext_call f arg).
Proof.
  intros HP. destruct f; simpl.
  - repeat preserves_step. apply grows_call_fn; assumption.
  - apply grows_handle_message_create; assumption.
Qed.

Lemma grows_store_guilds P gs : preserves (grows P) (store_guilds gs).
Proof.
  induction gs as [|g gs IH]; simpl; repeat preserves_step;
    first [ grows_leaf | apply IH ].
Qed.

Lemma not_send_handle_dispatch self message :
  preserves (grows not_send) (handle_dispatch ext_call self message).
Proof.
  unfold handle_dispatch, handle_event, dispatch_ready, dispatch_guild_create.
  repeat preserves_step;
    first [ grows_leaf
          | apply grows_store_guilds
          | apply grows_call, is_call_not_send ].
Qed.

Lemma not_send_handle_message self message :
  preserves (grows not_send) (handle_message ext_call self message).
Proof.
  unfold handle_message, handle_opcode, ensure_future_heartbeat.
  repeat preserves_step;
    first [ grows_leaf
          | apply not_send_handle_dispatch
          | apply grows_call, is_call_not_send ].
Qed.

Lemma not_send_read_loop self inbox :
  preserves (grows not_send) (read_loop ext_call self inbox).
Proof.
  induction inbox as [|msg inbox IH]; simpl; repeat preserves_step;
    first [ apply not_send_handle_message | apply IH ].
Qed.

Lemma same_conns_call_fn f arg : preserves same_conns (call_fn ext_call f arg).
Proof. unfold call_fn. repeat preserves_step; same_conns_leaf. Qed.

Lemma same_conns_match_loop self message ms i :
  preserves same_conns (match_loop ext_call self message i ms).
Proof.
  revert i. induction ms as [|m ms IH]; intros i; simpl.
  - preserves_step.
  - repeat preserves_step; first [ apply same_conns_call_fn | apply IH ].
Qed.

Lemma same_conns_handle_message_create self message :
  preserves same_conns (handle_message_create ext_call self message).
Proof.
  unfold handle_message_create, buffer_message, buffer_pop0, buffer_append.
  repeat preserves_step;
    first [ same_conns_leaf | apply same_conns_match_loop ].
Qed.

Lemma same_conns_call f arg : preserves same_conns (call ext_call f arg).
Proof.
  destruct f; simpl.
  - repeat preserves_step. apply same_conns_call_fn.
  - apply same_conns_handle_message_create.
Qed.

Lemma same_conns_store_guilds gs : preserves same_conns (store_guilds gs).
Proof.
  induction gs as [|g gs IH]; simpl; repeat preserves_step;
    first [ same_conns_leaf | apply IH ].
Qed.

Lemma same_sequence_handle_dispatch self message :
  preserves same_sequence (handle_dispatch ext_call self message).
Proof.
  unfold handle_dispatch, handle_event, dispatch_ready, dispatch_guild_create.
  repeat preserves_step;
    first [ apply same_sequence_update_conn; reflexivity
          | apply (preserves_weaken _ _ _ same_conns_sequence);
            first [ same_conns_leaf
                  | apply same_conns_store_guilds
                  | apply same_conns_call ] ].
Qed.

Lemma same_sequence_handle_message self message :
  preserves same_sequence (handle_message ext_call self message).
Proof.
  unfold handle_message, handle_opcode, ensure_future_heartbeat.
  repeat preserves_step;
    first [ apply same_sequence_update_conn; reflexivity
          | apply same_sequence_handle_dispatch
          | apply (preserves_weaken _ _ _ same_conns_sequence);
            first [ same_conns_leaf | apply same_conns_call ] ].
Qed.

End MethodFrames.

(** ** Running single steps *)

Lemma run_get_conn c w x : conns w !! c = Some x → get_conn c w = (w, inr x).
Proof. intros H. unfold get_conn. rewrite H. reflexivity. Qed.

(** Buffering touches [channelBuffer] only. *)
Lemma buffer_message_frame self message w :
  let w' := (buffer_message self message w).1 in
  conns w' = conns w ∧ chats w' = chats w ∧
  match_registry w' = match_registry w ∧ trace w' = trace w.
Proof.
  unfold buffer_message, buffer_pop0, buffer_append. munfold.
  repeat (case_match; simplify_eq/=; try done).
Qed.

(** ** The sequence number (C1) *)

(** On no envelope does [handle_message] write a connection's [sequence]:
    the DISPATCH branch binds [message['s']] to a local name. *)
Lemma handle_message_never_records_sequence ext_call self message w :
  sequence <$> conns (handle_message ext_call self message w).1 =
  sequence <$> conns w.
Proof. apply same_sequence_handle_message. Qed.

(** C1: processing a dispatch envelope with [s = n] does not record [n]:
    the connection's [sequence] is what it was before, and that old value
    is what the next heartbeat carries as [d]. *)
Theorem dispatch_leaves_sequence ext_call (c : nat) (message n interval : value)
    (x : connection) (w : world) :
  conns w !! c = Some x →
  subscript message "op" = inr (VInt opcodes.DISPATCH) →
  subscript message "s" = inr n →
  let w' := (handle_message ext_call c message w).1 in
  (∃ x', conns w' !! c = Some x' ∧ sequence x' = sequence x) ∧
  sent (trace (heartbeat_iter c interval w').1) =
    sent (trace w') ++ [heartbeat_envelope (sequence x)].
Proof.
  intros Hc _ _ w'.
  assert (Hseq : sequence <$> conns w' !! c = Some (sequence x)).
  { rewrite <- list_lookup_fmap. subst w'.
    rewrite handle_message_never_records_sequence, list_lookup_fmap, Hc.
    reflexivity. }
  destruct (conns w' !! c) as [x'|] eqn:Hc'; [|discriminate].
  simpl in Hseq. injection Hseq as Hseq. split; [eauto|].
  unfold heartbeat_iter. munfold. rewrite Hc'.
  destruct (ack x'), (as_number interval); simpl; rewrite Hc'; simpl;
    unfold sent; rewrite ?omap_app; simpl;
    rewrite ?app_nil_r, <- ?app_assoc, Hseq; reflexivity.
Qed.

Lemma dispatch_leaves_sequence_witness :
  let w' := (handle_message quiet_ext 0 typing_s5 fresh_session).1 in
  (∃ x', conns w' !! 0%nat = Some x' ∧ sequence x' = VNone) ∧
  sent (trace (heartbeat_iter 0 (VInt 41250) w').1) =
    sent (trace w') ++ [heartbeat_envelope VNone].
Proof.
  apply (dispatch_leaves_sequence quiet_ext 0 typing_s5 (VInt 5) (VInt 41250)
           (Connection "T" VNone VNone true VNone) fresh_session);
    reflexivity.
Defined.

(** The same run, evaluated: after [{op: 0, s: 5, t: "TYPING_START"}] on a
    fresh session [sequence] is [None], not [5], and the heartbeat sends
    [d = None]. *)
Lemma dispatch_s5_evaluated :
  let r := handle_message quiet_ext 0 typing_s5 fresh_session in
  r.2 = inr tt ∧
  sequence <$> conns r.1 !! 0%nat = Some VNone ∧
  trace (heartbeat_iter 0 (VInt 41250) r.1).1 =
    [EvSend 0 (heartbeat_envelope VNone); EvSleep 0 41250].
Proof. vm_compute. repeat split. Qed.

(** ** Unknown opcodes (C7) *)

(** Whatever compares unequal to the six opcodes that have a branch falls
    into the last branch.  That includes the opcodes 2, 3, 4, 5, 6 and 8. *)
Lemma unhandled_opcode_raises ext_call (c : nat) (message opcode : value)
    (w : world) :
  subscript message "op" = inr opcode →
  py_eq opcode (VInt opcodes.DISPATCH) = false →
  py_eq opcode (VInt opcodes.HEARTBEAT) = false →
  py_eq opcode (VInt opcodes.RECONNECT) = false →
  py_eq opcode (VInt opcodes.INVALID_SESSION) = false →
  py_eq opcode (VInt opcodes.HELLO) = false →
  py_eq opcode (VInt opcodes.HEARTBEAT_ACK) = false →
  handle_message ext_call c message w = (w, inl (NameError "op")).
Proof.
  intros Hop H0 H1 H7 H9 H10 H11. unfold handle_message, handle_opcode. munfold.
  rewrite Hop, H0, H1, H7, H9, H10, H11. reflexivity.
Qed.

(** C7: an envelope whose opcode is an integer outside 0..11 makes
    [handle_message] raise [NameError] for the name [op]; nothing is
    printed, the world is unchanged and the opcode registry is not
    consulted. *)
Theorem unknown_opcode_raises ext_call (c : nat) (message : value)
    (w : world) (z : Z) :
  subscript message "op" = inr (VInt z) →
  z < 0 ∨ 11 < z →
  handle_message ext_call c message w = (w, inl (NameError "op")).
Proof.
  intros Hop Hz.
  apply (unhandled_opcode_raises ext_call c message (VInt z) w Hop);
    simpl; apply Z.eqb_neq;
    unfold opcodes.DISPATCH, opcodes.HEARTBEAT, opcodes.RECONNECT,
      opcodes.INVALID_SESSION, opcodes.HELLO, opcodes.HEARTBEAT_ACK; lia.
Qed.

Lemma unknown_opcode_raises_witness :
  handle_message quiet_ext 0 (received 12 VNone VNone VNone) fresh_session =
  (fresh_session, inl (NameError "op")).
Proof.
  apply (unknown_opcode_raises quiet_ext 0 (received 12 VNone VNone VNone)
           fresh_session 12); [reflexivity | right; lia].
Defined.

(** ** GUILD_CREATE (C6) *)

(** C6: a GUILD_CREATE for a guild id that is not in [guilds] raises
    [KeyError] at [self.guilds[gid]]; the guild is not stored. *)
Theorem guild_create_unknown_raises ext_call (c : nat)
    (message ev gid : value) (k : hkey) (w : world) :
  subscript message "t" = inr (VStr "GUILD_CREATE") →
  subscript message "d" = inr ev →
  subscript ev "id" = inr gid →
  to_key gid = Some k →
  guilds w !! k = None →
  handle_dispatch ext_call c message w = (w, inl (KeyError gid)).
Proof.
  intros Ht Hd Hid Hk Hg.
  unfold handle_dispatch, handle_event, dispatch_guild_create, hash_key.
  munfold. rewrite Ht, Hd. simpl. rewrite Hid, Hk, Hg. reflexivity.
Qed.

Lemma guild_create_unknown_raises_witness :
  handle_dispatch quiet_ext 0 (guild_create "G1" "guild") fresh_session =
  (fresh_session, inl (KeyError (VStr "G1"))).
Proof.
  apply (guild_create_unknown_raises quiet_ext 0 (guild_create "G1" "guild")
           (VDict [("id", VStr "G1"); ("name", VStr "guild")]) (VStr "G1")
           (KStr "G1") fresh_session); reflexivity.
Defined.

(** A GUILD_CREATE for a guild that is stored and not marked unavailable
    raises too, [NameError] for the name [guild], before it stores. *)
Lemma guild_create_available_raises ext_call (c : nat)
    (message ev gid g un : value) (k : hkey) (w : world) :
  subscript message "t" = inr (VStr "GUILD_CREATE") →
  subscript message "d" = inr ev →
  subscript ev "id" = inr gid →
  to_key gid = Some k →
  guilds w !! k = Some g →
  subscript g "unavailable" = inr un →
  truthy un = false →
  handle_dispatch ext_call c message w = (w, inl (NameError "guild")).
Proof.
  intros Ht Hd Hid Hk Hg Hun Hf.
  unfold handle_dispatch, handle_event, dispatch_guild_create, hash_key.
  munfold. rewrite Ht, Hd. simpl. rewrite Hid, Hk, Hg. simpl.
  rewrite Hun, Hf. reflexivity.
Qed.

(** The one case that stores: the guild is known and marked unavailable. *)
Lemma guild_create_unavailable_stores ext_call (c : nat)
    (message ev gid g un : value) (k : hkey) (w : world) :
  subscript message "t" = inr (VStr "GUILD_CREATE") →
  subscript message "d" = inr ev →
  subscript ev "id" = inr gid →
  to_key gid = Some k →
  guilds w !! k = Some g →
  subscript g "unavailable" = inr un →
  truthy un = true →
  dispatch_registry w !! KStr "GUILD_CREATE" = None →
  handle_dispatch ext_call c message w =
  (set_guilds (<[k := ev]>) w, inr tt).
Proof.
  intros Ht Hd Hid Hk Hg Hun Hf Hreg.
  unfold handle_dispatch, handle_event, dispatch_guild_create, hash_key.
  munfold. rewrite Ht, Hd. simpl. rewrite Hid, Hk, Hg. simpl.
  rewrite Hun, Hf. simpl. rewrite Hreg. reflexivity.
Qed.

(** ** Matching chat messages (C4, C10) *)

(** C10: while the connection's [user] is still [None] and a matcher is
    registered, [handle_message_create] raises on every message and neither
    evaluates a matcher nor calls a handler (the trace is unchanged); when
    the message was buffered and carries an author id, the exception is the
    [TypeError] of indexing [None] in the self-message check. *)
Theorem matching_before_ready_fails ext_call (ch : nat) (h : chat_handler)
    (x : connection) (message : value) (w : world) :
  chats w !! ch = Some h →
  conns w !! bot_connection h = Some x →
  user x = VNone →
  (0 < length (match_registry w).1)%nat →
  let r := handle_message_create ext_call ch message w in
  (∃ e, r.2 = inl e) ∧
  trace r.1 = trace w ∧
  (∀ a aid,
     (buffer_message ch message w).2 = inr tt →
     subscript message "author" = inr a →
     subscript a "id" = inr aid →
     r.2 = inl TypeError).
Proof.
  intros Hch Hc Hu Hreg r. subst r. unfold handle_message_create.
  rewrite run_bind.
  destruct (buffer_message_frame ch message w) as (Hconns & Hchats & Hmr & Htr).
  destruct (buffer_message ch message w) as [w' [e|[]]] eqn:Hb; simpl in *.
  - split; [eauto|]. split; [assumption|]. intros a aid Hbad. discriminate.
  - rewrite run_bind. unfold gets at 1. simpl. rewrite Hmr.
    destruct (match_registry w).1 as [|m ms]; [simpl in Hreg; lia|]. simpl.
    munfold. rewrite Hchats, Hch, Hconns, Hc, Hu.
    destruct (subscript message "author") as [e|a]; simpl.
    { split; [eauto|]. split; [assumption|]. intros ? ? _ ?. discriminate. }
    destruct (subscript a "id") as [e|aid] eqn:Hid; simpl.
    { split; [eauto|]. split; [assumption|]. intros ? ? _ ? ?. congruence. }
    split; [eauto|]. split; [assumption|]. reflexivity.
Qed.

Lemma matching_before_ready_fails_witness :
  let r := handle_message_create quiet_ext 0 (chat_message "C1" "U1" "ping")
             unready_matching in
  (∃ e, r.2 = inl e) ∧
  trace r.1 = trace unready_matching ∧
  (∀ a aid,
     (buffer_message 0 (chat_message "C1" "U1" "ping") unready_matching).2
       = inr tt →
     subscript (chat_message "C1" "U1" "ping") "author" = inr a →
     subscript a "id" = inr aid →
     r.2 = inl TypeError).
Proof.
  apply (matching_before_ready_fails quiet_ext 0 (ChatHandler 0 3)
           (Connection "T" VNone VNone true VNone)
           (chat_message "C1" "U1" "ping") unready_matching);
    [reflexivity | reflexivity | reflexivity | vm_compute; lia].
Defined.

(** C4: with the registry [[A; B; C]], none of them suppressed by the
    self-reply rule, A's and C's predicates truthy on the message and B's
    not, [handle_message_create] returns normally and the calls it made are,
    in this order: A's predicate, A's handler (which returns), B's
    predicate, C's predicate, C's handler.  B's handler is not called. *)
Theorem matchers_fan_out_in_order ext_call (ch : nat) (h : chat_handler)
    (x : connection) (message a aid uid : value) (w : world)
    (pA hA pB hB pC hC : fid) (nA nB nC : bool) (rA vA rB rC vC : value) :
  chats w !! ch = Some h →
  conns w !! bot_connection h = Some x →
  match_registry w =
    ([MatcherEntry pA nA; MatcherEntry pB nB; MatcherEntry pC nC],
     [hA; hB; hC]) →
  (buffer_message ch message w).2 = inr tt →
  subscript message "author" = inr a →
  subscript a "id" = inr aid →
  subscript (user x) "id" = inr uid →
  py_eq aid uid && nA = false →
  py_eq aid uid && nB = false →
  py_eq aid uid && nC = false →
  ext_call pA message = inr rA → truthy rA = true →
  ext_call pB message = inr rB → truthy rB = false →
  ext_call pC message = inr rC → truthy rC = true →
  ext_call hA message = inr vA →
  ext_call hC message = inr vC →
  let r := handle_message_create ext_call ch message w in
  r.2 = inr tt ∧
  trace r.1 = trace w ++
    [EvCall pA message; EvRet pA rA; EvCall hA message; EvRet hA vA;
     EvCall pB message; EvRet pB rB;
     EvCall pC message; EvRet pC rC; EvCall hC message; EvRet hC vC].
Proof.
  intros Hch Hc Hreg Hbuf Ha Haid Huid HsA HsB HsC
    HpA HtA HpB HtB HpC HtC HhA HhC r.
  subst r. unfold handle_message_create. rewrite run_bind.
  destruct (buffer_message_frame ch message w) as (Hconns & Hchats & Hmr & Htr).
  destruct (buffer_message ch message w) as [w' [e|[]]]; simpl in *;
    [discriminate|].
  rewrite Hreg in Hmr.
  rewrite run_bind. unfold gets at 1. simpl. rewrite Hmr. simpl.
  unfold call_fn. munfold. simpl.
  repeat (progress (rewrite ?Ha, ?Haid, ?Hchats, ?Hch, ?Hconns, ?Hc, ?Huid,
                      ?Hmr, ?HsA, ?HsB, ?HsC, ?HpA, ?HtA, ?HpB, ?HtB, ?HpC,
                      ?HtC, ?HhA, ?HhC; simpl)).
  rewrite Htr, <- !app_assoc. split; reflexivity.
Qed.

Lemma matchers_fan_out_in_order_witness :
  let m := chat_message "C1" "U1" "ping" in
  let r := handle_message_create abc_ext 0 m abc_chat in
  r.2 = inr tt ∧
  trace r.1 = trace abc_chat ++
    [EvCall 1 m; EvRet 1 (VBool true); EvCall 2 m; EvRet 2 VNone;
     EvCall 3 m; EvRet 3 VNone;
     EvCall 5 m; EvRet 5 (VStr "yes"); EvCall 6 m; EvRet 6 VNone].
Proof.
  apply (matchers_fan_out_in_order abc_ext 0 (ChatHandler 0 3)
           ready_connection (chat_message "C1" "U1" "ping")
           (VDict [("id", VStr "U1")]) (VStr "U1") (VStr "U0") abc_chat
           1%nat 2%nat 3%nat 4%nat 5%nat 6%nat true true true
           (VBool true) VNone VNone (VStr "yes") VNone);
    reflexivity.
Defined.

(** ** The heartbeat loop (C5) *)

(** One turn, run. *)
Lemma heartbeat_iter_run (c : nat) (interval : value) (w : world)
    (x : connection) (ms : Z) :
  conns w !! c = Some x →
  as_number interval = inr ms →
  heartbeat_iter c interval w =
  (set_trace (λ t, t ++ [EvSleep c ms])
     (set_conns (λ l, <[c := set_ack false x]> l)
        (set_trace (λ t, t ++ [EvSend c (heartbeat_envelope (sequence x))])
           (if ack x then w
            else set_trace (λ t, t ++ [EvPrint FatalNoAck]) w))),
   inr tt).
Proof.
  intros Hc Hi. unfold heartbeat_iter. munfold.
  rewrite Hc. destruct (ack x); simpl; rewrite Hc, Hi; reflexivity.
Qed.

(** [n] turns send [n] heartbeats, all carrying the connection's
    [sequence], and leave [ack] false. *)
Lemma heartbeat_sends_one_per_turn (n : nat) (c : nat) (interval : value)
    (ms : Z) (w : world) (x : connection) :
  conns w !! c = Some x →
  as_number interval = inr ms →
  ∃ w',
    heartbeat n c interval w = (w', inr tt) ∧
    sent (trace w') =
      sent (trace w) ++ replicate n (heartbeat_envelope (sequence x)) ∧
    conns w' !! c = Some (if n is O then x else set_ack false x).
Proof.
  intros Hc Hi. revert w x Hc. induction n as [|n IH]; intros w x Hc.
  - exists w. simpl. rewrite app_nil_r. done.
  - simpl. rewrite run_bind, (heartbeat_iter_run c interval w x ms Hc Hi).
    match goal with |- context [ heartbeat n c interval ?w0 ] =>
      destruct (IH w0 (set_ack false x)) as (w' & Hrun & Hsent & Hconn)
    end.
    { simpl. apply list_lookup_insert_eq.
      destruct (ack x); simpl; eapply lookup_lt_Some; eassumption. }
    exists w'. split; [exact Hrun|]. split.
    + rewrite Hsent. simpl. unfold sent. rewrite !omap_app. simpl.
      destruct (ack x); simpl; rewrite ?omap_app; simpl;
        rewrite ?app_nil_r, <- ?app_assoc; reflexivity.
    + rewrite Hconn. destruct n; reflexivity.
Qed.

(** The turn is the three steps taken one after another from the check. *)
Lemma heartbeat_iter_steps (c : nat) (interval : value) (w : world) :
  heartbeat_iter c interval w =
  (hb_step c interval AtCheck ≫= λ p1,
   hb_step c interval p1 ≫= λ p2,
   hb_step c interval p2 ≫= λ _, mret tt) w.
Proof.
  unfold heartbeat_iter, hb_step. munfold.
  destruct (conns w !! c) as [x|] eqn:Hc; [|reflexivity].
  destruct (ack x); simpl; rewrite Hc; simpl;
    destruct (as_number interval); reflexivity.
Qed.

Lemma hb_reset_run (c : nat) (interval : value) (w : world) (x : connection) :
  conns w !! c = Some x →
  hb_step c interval AtReset w =
    (set_conns (λ l, <[c := set_ack false x]> l) w, inr AtSleep).
Proof.
  intros Hc. unfold hb_step. munfold. rewrite Hc. reflexivity.
Qed.

(** The three steps of a turn, each from the world the step before left. *)
Lemma hb_steps_run (c : nat) (interval : value) (w : world)
    (x : connection) (ms : Z) :
  conns w !! c = Some x →
  as_number interval = inr ms →
  let logged :=
    if ack x then w else set_trace (λ t, t ++ [EvPrint FatalNoAck]) w in
  let beaten :=
    set_trace (λ t, t ++ [EvSend c (heartbeat_envelope (sequence x))]) logged in
  let reset := set_conns (λ l, <[c := set_ack false x]> l) beaten in
  let slept := set_trace (λ t, t ++ [EvSleep c ms]) reset in
  hb_step c interval AtCheck w = (beaten, inr AtReset) ∧
  hb_step c interval AtReset beaten = (reset, inr AtSleep) ∧
  hb_step c interval AtSleep reset = (slept, inr AtCheck) ∧
  conns beaten = conns w.
Proof.
  intros Hc Hi logged beaten reset slept.
  assert (Hcb : conns beaten = conns w).
  { subst beaten logged. destruct (ack x); reflexivity. }
  split; [|split; [|split]].
  - subst beaten logged. unfold hb_step. munfold. rewrite Hc.
    destruct (ack x); reflexivity.
  - apply hb_reset_run. rewrite Hcb. exact Hc.
  - subst slept. unfold hb_step. munfold. rewrite Hi. reflexivity.
  - exact Hcb.
Qed.

(** C5: one turn of the heartbeat loop, point by point, for an interval
    that [interval / 1000] accepts.  From the check, the turn prints the
    liveness failure if [ack] is false and sends the one envelope
    [{op: 1, d: sequence}]; [ack] is still what it was.  The next step, and
    nothing before it, sets [ack] to false, and adds nothing to the trace.
    Only then the turn sleeps [interval] milliseconds, with [ack] false, and
    is back at the check.  The three steps together are the body of the
    loop, which goes on from the world the sleep left. *)
Theorem heartbeat_turn_in_order (c : nat) (interval : value) (w : world)
    (x : connection) (ms : Z) :
  conns w !! c = Some x →
  as_number interval = inr ms →
  let logged :=
    if ack x then w else set_trace (λ t, t ++ [EvPrint FatalNoAck]) w in
  let beaten :=
    set_trace (λ t, t ++ [EvSend c (heartbeat_envelope (sequence x))]) logged in
  let reset := set_conns (λ l, <[c := set_ack false x]> l) beaten in
  let slept := set_trace (λ t, t ++ [EvSleep c ms]) reset in
  hb_step c interval AtCheck w = (beaten, inr AtReset) ∧
  hb_step c interval AtReset beaten = (reset, inr AtSleep) ∧
  hb_step c interval AtSleep reset = (slept, inr AtCheck) ∧
  ack <$> conns beaten !! c = Some (ack x) ∧
  ack <$> conns reset !! c = Some false ∧
  heartbeat_iter c interval w = (slept, inr tt) ∧
  ∀ n, heartbeat (S n) c interval w = heartbeat n c interval slept.
Proof.
  intros Hc Hi logged beaten reset slept.
  destruct (hb_steps_run c interval w x ms Hc Hi) as (H1 & H2 & H3 & Hcb).
  fold logged beaten reset slept in H1, H2, H3, Hcb.
  assert (Hrun : heartbeat_iter c interval w = (slept, inr tt)).
  { rewrite heartbeat_iter_steps, run_bind, H1, run_bind, H2, run_bind, H3.
    reflexivity. }
  clearbody beaten. repeat split; try assumption.
  - rewrite Hcb, Hc. reflexivity.
  - subst reset. simpl. rewrite list_lookup_insert_eq; [reflexivity|].
    rewrite Hcb. eapply lookup_lt_Some; eassumption.
  - intros n. simpl. rewrite run_bind, Hrun. reflexivity.
Qed.

Lemma heartbeat_turn_in_order_witness :
  let x := Connection "T" VNone VNone false (VInt 5) in
  let w := World [x] [] ∅ ∅ ∅ ([], []) ∅ [] in
  let beaten :=
    World [x] [] ∅ ∅ ∅ ([], []) ∅
      [EvPrint FatalNoAck; EvSend 0 (heartbeat_envelope (VInt 5))] in
  let reset :=
    World [set_ack false x] [] ∅ ∅ ∅ ([], []) ∅
      [EvPrint FatalNoAck; EvSend 0 (heartbeat_envelope (VInt 5))] in
  let slept :=
    World [set_ack false x] [] ∅ ∅ ∅ ([], []) ∅
      [EvPrint FatalNoAck; EvSend 0 (heartbeat_envelope (VInt 5));
       EvSleep 0 41250] in
  hb_step 0 (VInt 41250) AtCheck w = (beaten, inr AtReset) ∧
  hb_step 0 (VInt 41250) AtReset beaten = (reset, inr AtSleep) ∧
  hb_step 0 (VInt 41250) AtSleep reset = (slept, inr AtCheck) ∧
  ack <$> conns beaten !! 0%nat = Some false ∧
  ack <$> conns reset !! 0%nat = Some false ∧
  heartbeat_iter 0 (VInt 41250) w = (slept, inr tt) ∧
  ∀ n, heartbeat (S n) 0 (VInt 41250) w = heartbeat n 0 (VInt 41250) slept.
Proof.
  apply (heartbeat_turn_in_order 0 (VInt 41250)
           (World [Connection "T" VNone VNone false (VInt 5)] [] ∅ ∅ ∅
              ([], []) ∅ [])
           (Connection "T" VNone VNone false (VInt 5)) 41250);
    reflexivity.
Defined.

(** A non-numeric interval makes the turn raise at [interval / 1000], after
    the heartbeat was sent and [ack] reset. *)
Lemma heartbeat_bad_interval (c : nat) (interval : value) (w : world)
    (x : connection) :
  conns w !! c = Some x →
  as_number interval = inl TypeError →
  (heartbeat_iter c interval w).2 = inl TypeError.
Proof.
  intros Hc Hi. unfold heartbeat_iter. munfold.
  rewrite Hc. destruct (ack x); simpl; rewrite Hc, Hi; reflexivity.
Qed.

(** ** Identify and Hello (C2) *)

Lemma sent_app t1 t2 : sent (t1 ++ t2) = sent t1 ++ sent t2.
Proof. apply omap_app. Qed.

Lemma sent_not_send evs : Forall (λ e, not_send e = true) evs → sent evs = [].
Proof.
  induction 1 as [|e evs He _ IH]; [reflexivity|].
  unfold sent in *. destruct e; simpl in *; first [ exact IH | discriminate ].
Qed.

(** [start] sends the Identify first; the read loop that follows sends
    nothing. *)
Lemma start_run ext_call (c : nat) (x : connection) (response url now : value)
    (inbox : list value) (w : world) :
  conns w !! c = Some x →
  subscript response "url" = inr url →
  ∃ w' r evs,
    start ext_call c response now inbox w = (w', r) ∧
    trace w' = trace w ++ EvSend c (identify_envelope (botToken x) now) :: evs ∧
    Forall (λ e, not_send e = true) evs.
Proof.
  intros Hc Hurl. unfold start, identify. munfold. rewrite Hurl, Hc.
  match goal with
  | |- context [ read_loop _ _ _ ?w0 ] =>
      destruct (not_send_read_loop ext_call c inbox w0) as (evs & Hevs & Hall);
      destruct (read_loop ext_call c inbox w0) as [w1 r1]
  end.
  simpl in Hevs. exists w1, r1, evs. split; [reflexivity|].
  split; [|exact Hall]. rewrite Hevs, <- app_assoc. reflexivity.
Qed.

(** A Hello prints the interval and schedules the heartbeat loop; what
    follows are the calls of a handler registered for opcode 10, if any. *)
Lemma hello_run ext_call (c : nat) (message d interval : value) (w : world) :
  subscript message "op" = inr (VInt opcodes.HELLO) →
  subscript message "d" = inr d →
  subscript d "heartbeat_interval" = inr interval →
  ∃ w' r evs,
    handle_message ext_call c message w = (w', r) ∧
    trace w' = trace w ++
      EvPrint (HelloReceived interval) :: EvSpawnHeartbeat c interval :: evs ∧
    Forall (λ e, is_call e = true) evs.
Proof.
  intros Hop Hd Hi. unfold handle_message, handle_opcode. munfold. rewrite Hop. simpl.
  rewrite Hd, Hi.
  destruct (message_registry _ !! _) as [f|].
  - match goal with
    | |- context [ call _ _ _ ?w0 ] =>
        destruct (grows_call ext_call is_call f message (λ e H, H) w0)
          as (evs & Hevs & Hall);
        destruct (call ext_call f message w0) as [w1 r1]
    end.
    simpl in Hevs. exists w1, r1, evs. split; [reflexivity|].
    split; [|exact Hall]. rewrite Hevs, <- !app_assoc. reflexivity.
  - eexists _, _, []. split; [reflexivity|]. split; [|constructor].
    simpl. rewrite <- !app_assoc. reflexivity.
Qed.

(** C2, as the code has it: [start] sends the Identify envelope exactly
    once, as its first event, before the read loop reads any envelope, and
    the read loop sends nothing; processing a Hello prints its
    [heartbeat_interval], schedules the heartbeat loop with that interval
    and, apart from the calls of a registered opcode handler, does nothing
    else: it sends no Identify. *)
Theorem identify_once_at_start ext_call (c : nat) (x : connection)
    (response url now message d interval : value) (inbox : list value)
    (w w' : world) :
  conns w !! c = Some x →
  subscript response "url" = inr url →
  subscript message "op" = inr (VInt opcodes.HELLO) →
  subscript message "d" = inr d →
  subscript d "heartbeat_interval" = inr interval →
  (∃ evs,
     trace (start ext_call c response now inbox w).1 =
       trace w ++ EvSend c (identify_envelope (botToken x) now) :: evs ∧
     Forall (λ e, not_send e = true) evs) ∧
  sent (trace (start ext_call c response now inbox w).1) =
    sent (trace w) ++ [identify_envelope (botToken x) now] ∧
  (∃ evs,
     trace (handle_message ext_call c message w').1 =
       trace w' ++
       EvPrint (HelloReceived interval) :: EvSpawnHeartbeat c interval :: evs ∧
     Forall (λ e, is_call e = true) evs).
Proof.
  intros Hc Hurl Hop Hd Hi.
  destruct (start_run ext_call c x response url now inbox w Hc Hurl)
    as (w1 & r1 & evs & Hrun & Htr & Hall).
  destruct (hello_run ext_call c message d interval w' Hop Hd Hi)
    as (w2 & r2 & evs' & Hrun' & Htr' & Hall').
  rewrite Hrun, Hrun'. simpl. split; [|split].
  - exists evs. split; assumption.
  - rewrite Htr, sent_app. f_equal.
    change (EvSend c (identify_envelope (botToken x) now) :: evs)
      with ([EvSend c (identify_envelope (botToken x) now)] ++ evs).
    rewrite sent_app, (sent_not_send evs Hall). reflexivity.
  - exists evs'. split; assumption.
Qed.

Lemma identify_once_at_start_witness :
  (∃ evs,
     trace (start quiet_ext 0 gateway_response (VInt 0)
              [hello_41250; typing_s5] fresh_session).1 =
       trace fresh_session ++
       EvSend 0 (identify_envelope "T" (VInt 0)) :: evs ∧
     Forall (λ e, not_send e = true) evs) ∧
  sent (trace (start quiet_ext 0 gateway_response (VInt 0)
                 [hello_41250; typing_s5] fresh_session).1) =
    sent (trace fresh_session) ++ [identify_envelope "T" (VInt 0)] ∧
  (∃ evs,
     trace (handle_message quiet_ext 0 hello_41250 fresh_session).1 =
       trace fresh_session ++
       EvPrint (HelloReceived (VInt 41250)) ::
       EvSpawnHeartbeat 0 (VInt 41250) :: evs ∧
     Forall (λ e, is_call e = true) evs).
Proof.
  apply (identify_once_at_start quiet_ext 0
           (Connection "T" VNone VNone true VNone) gateway_response
           (VStr "wss://gateway") (VInt 0) hello_41250
           (VDict [("heartbeat_interval", VInt 41250)]) (VInt 41250)
           [hello_41250; typing_s5] fresh_session fresh_session);
    reflexivity.
Defined.

(** C2 as stated fails: with no envelope received at all, [start] has sent
    the Identify; and processing a Hello sends nothing. *)
Lemma identify_sent_without_hello :
  sent (trace (start quiet_ext 0 gateway_response (VInt 0) []
                 fresh_session).1) = [identify_envelope "T" (VInt 0)] ∧
  sent (trace (handle_message quiet_ext 0 hello_41250 fresh_session).1) = [].
Proof. vm_compute. split; reflexivity. Qed.

(** ** READY (C3) *)

(** The READY branch assigns [user] and [session_id] whatever they were;
    the warning is printed first when a session id is stored. *)
Lemma dispatch_ready_assigns (c : nat) (ev u sid : value) (x : connection)
    (w : world) :
  conns w !! c = Some x →
  subscript ev "user" = inr u →
  subscript ev "session_id" = inr sid →
  ∃ w' r evs,
    dispatch_ready c ev w = (w', r) ∧
    conns w' = <[c := set_session_id sid (set_user u x)]> (conns w) ∧
    trace w' =
      trace w ++
      (if truthy (session_id x) then [EvPrint WarnRepeatReady] else []) ++ evs.
Proof.
  intros Hc Hu Hsid. unfold dispatch_ready.
  rewrite run_bind, (run_get_conn _ _ _ Hc).
  rewrite run_bind.
  set (w1 := if truthy (session_id x)
             then set_trace (λ t, t ++ [EvPrint WarnRepeatReady]) w else w).
  assert (H1 : when (truthy (session_id x)) (print WarnRepeatReady) w
               = (w1, inr tt)).
  { subst w1. destruct (truthy (session_id x)); reflexivity. }
  rewrite H1.
  assert (Hc1 : conns w1 = conns w)
    by (subst w1; destruct (truthy (session_id x)); reflexivity).
  assert (Ht1 : trace w1 =
                trace w ++ (if truthy (session_id x)
                            then [EvPrint WarnRepeatReady] else [])).
  { subst w1. destruct (truthy (session_id x)); simpl; [reflexivity|].
    by rewrite app_nil_r. }
  clearbody w1. clear H1.
  rewrite run_bind. unfold lift at 1. rewrite Hu.
  rewrite run_bind. unfold update_conn at 1.
  rewrite run_bind. unfold get_conn at 1. rewrite Hc1, Hc.
  unfold modify at 1.
  rewrite run_bind. unfold lift at 1. rewrite Hsid.
  rewrite run_bind. unfold update_conn at 1.
  rewrite run_bind. unfold get_conn at 1.
  cbn [conns set_conns]. rewrite Hc1.
  rewrite list_lookup_insert_eq by (eapply lookup_lt_Some; eassumption).
  unfold modify at 1.
  match goal with
  | |- context [ (?m ≫= ?k) ?w0 ] =>
      assert (Hsame : preserves same_conns (m ≫= k))
        by (repeat preserves_step;
            first [ same_conns_leaf | apply same_conns_store_guilds ]);
      assert (Hgrow : preserves (grows (λ _, true)) (m ≫= k))
        by (repeat preserves_step;
            first [ grows_leaf | apply grows_store_guilds ]);
      specialize (Hsame w0); specialize (Hgrow w0);
      destruct ((m ≫= k) w0) as [w2 r2]
  end.
  unfold same_conns in Hsame. destruct Hgrow as (evs & Hevs & _). simpl in *.
  exists w2, r2, evs. split; [reflexivity|]. split.
  - rewrite Hsame, list_insert_insert_eq, Hc1. reflexivity.
  - rewrite Hevs, Ht1, app_assoc. reflexivity.
Qed.

(** The same through [handle_dispatch]: the handler registered for READY,
    if any, leaves the connections alone. *)
Lemma handle_dispatch_ready ext_call (c : nat) (message ev u sid : value)
    (x : connection) (w : world) :
  conns w !! c = Some x →
  subscript message "t" = inr (VStr "READY") →
  subscript message "d" = inr ev →
  subscript ev "user" = inr u →
  subscript ev "session_id" = inr sid →
  ∃ w' r evs,
    handle_dispatch ext_call c message w = (w', r) ∧
    conns w' = <[c := set_session_id sid (set_user u x)]> (conns w) ∧
    trace w' =
      trace w ++
      (if truthy (session_id x) then [EvPrint WarnRepeatReady] else []) ++ evs.
Proof.
  intros Hc Ht Hd Hu Hsid. unfold handle_dispatch.
  rewrite run_bind. unfold lift at 1. rewrite Ht.
  rewrite run_bind. unfold lift at 1. rewrite Hd.
  unfold handle_event.
  change (py_eq (VStr "READY") (VStr "READY")) with true. cbv iota.
  rewrite run_bind.
  destruct (dispatch_ready_assigns c ev u sid x w Hc Hu Hsid)
    as (w1 & r1 & evs & Hrun & Hconns & Hevs).
  rewrite Hrun.
  destruct r1 as [e|[]].
  - exists w1, (inl e), evs. split; [reflexivity|]. split; assumption.
  - match goal with
    | |- context [ (?m ≫= ?k) w1 ] =>
        assert (Hsame : preserves same_conns (m ≫= k))
          by (repeat preserves_step; apply same_conns_call);
        assert (Hgrow : preserves (grows (λ _, true)) (m ≫= k))
          by (repeat preserves_step; apply grows_call; reflexivity);
        specialize (Hsame w1); specialize (Hgrow w1);
        destruct ((m ≫= k) w1) as [w2 r2]
    end.
    unfold same_conns in Hsame. destruct Hgrow as (evs' & Hevs' & _).
    simpl in *.
    exists w2, r2, (evs ++ evs'). split; [reflexivity|]. split.
    + congruence.
    + rewrite Hevs', Hevs, <- !app_assoc. reflexivity.
Qed.

(** C3, as the code has it: every READY, a second one included, assigns
    [user] and [session_id] from its own payload, replacing what was
    stored; when a truthy session id was stored, the duplicate warning is
    printed first. *)
Theorem ready_replaces_identity ext_call (c : nat) (message ev u sid : value)
    (x : connection) (w : world) :
  conns w !! c = Some x →
  subscript message "t" = inr (VStr "READY") →
  subscript message "d" = inr ev →
  subscript ev "user" = inr u →
  subscript ev "session_id" = inr sid →
  let w' := (handle_dispatch ext_call c message w).1 in
  (∃ x', conns w' !! c = Some x' ∧ user x' = u ∧ session_id x' = sid) ∧
  (truthy (session_id x) = true →
   ∃ evs, trace w' = trace w ++ EvPrint WarnRepeatReady :: evs).
Proof.
  intros Hc Ht Hd Hu Hsid.
  destruct (handle_dispatch_ready ext_call c message ev u sid x w
              Hc Ht Hd Hu Hsid)
    as (w1 & r1 & evs & Hrun & Hconns & Hevs).
  rewrite Hrun. simpl. split.
  - exists (set_session_id sid (set_user u x)). split; [|split; reflexivity].
    rewrite Hconns. apply list_lookup_insert_eq.
    eapply lookup_lt_Some; eassumption.
  - intros Htr. rewrite Htr in Hevs. exists evs. exact Hevs.
Qed.

Lemma ready_replaces_identity_witness :
  let w' := (handle_dispatch quiet_ext 0 (ready 2 "U9" "other" "S2")
               ready_chat).1 in
  (∃ x', conns w' !! 0%nat = Some x' ∧
         user x' = account "U9" "other" ∧ session_id x' = VStr "S2") ∧
  (truthy (session_id ready_connection) = true →
   ∃ evs, trace w' = trace ready_chat ++ EvPrint WarnRepeatReady :: evs).
Proof.
  apply (ready_replaces_identity quiet_ext 0 (ready 2 "U9" "other" "S2")
           (ready_event "U9" "other" "S2") (account "U9" "other") (VStr "S2")
           ready_connection ready_chat);
    reflexivity.
Defined.

(** C3 as stated fails: after a second READY the stored [user] and
    [session_id] are the second payload's, not the first's. *)
Lemma second_ready_replaces_identity :
  let w1 := (handle_dispatch quiet_ext 0 (ready 1 "U0" "falsebot" "S1")
               fresh_session).1 in
  let w2 := (handle_dispatch quiet_ext 0 (ready 2 "U9" "other" "S2") w1).1 in
  (user <$> conns w1 !! 0%nat = Some (account "U0" "falsebot") ∧
   session_id <$> conns w1 !! 0%nat = Some (VStr "S1")) ∧
  (user <$> conns w2 !! 0%nat = Some (account "U9" "other") ∧
   session_id <$> conns w2 !! 0%nat = Some (VStr "S2")) ∧
  trace w2 = trace w1 ++
    [EvPrint WarnRepeatReady; EvPrint (MyUsername (VStr "other"));
     EvPrint (InGuilds 0)].
Proof. vm_compute. repeat split. Qed.

(** ** Registration (C8, C9) *)

#[global] Instance same_registries_preorder : PreOrder same_registries.
Proof.
  split.
  - intros w. split; reflexivity.
  - intros w1 w2 w3 [H1 H2] [H3 H4]. split; congruence.
Qed.




Section RegistryFrames.
Variable ext_call : fid → value → res value.








End RegistryFrames.





(** Registering again a matcher that is registered with the same flag
    reaches the warning, whose f-string reads the unbound name
    [expression]: the call raises [NameError], prints nothing and leaves
    the registry as it was. *)
Lemma register_match_twice_raises :
  let w1 := (register_match 0 1 2 true unready_chat).1 in
  register_match 0 1 3 true w1 = (w1, inl (NameError "expression")).
Proof. vm_compute. reflexivity. Qed.












(** * Further properties of the code *)

(** ** Registration *)

(** Registering under a key that is not bound yet prints nothing, binds the
    key and leaves every other key, and the other registry, as they were. *)
Theorem registration_binds_fresh_key (c : nat) (ev op : value) (k ko : hkey)
    (f g : callable) (w : world) :
  to_key ev = Some k →
  dispatch_registry w !! k = None →
  to_key op = Some ko →
  message_registry w !! ko = None →
  let rd := register_dispatch c ev f w in
  let rm := register_message c op g w in
  (rd.2 = inr tt ∧ trace rd.1 = trace w ∧
   dispatch_registry rd.1 !! k = Some f ∧
   (∀ k', k' ≠ k → dispatch_registry rd.1 !! k' = dispatch_registry w !! k') ∧
   message_registry rd.1 = message_registry w) ∧
  (rm.2 = inr tt ∧ trace rm.1 = trace w ∧
   message_registry rm.1 !! ko = Some g ∧
   (∀ k', k' ≠ ko → message_registry rm.1 !! k' = message_registry w !! k') ∧
   dispatch_registry rm.1 = dispatch_registry w).
Proof.
  intros Hk Hf Hko Hg rd rm. subst rd rm.
  unfold register_dispatch, register_message, hash_key. munfold.
  rewrite Hk, Hko, Hf, Hg. simpl.
  repeat split; try apply lookup_insert_eq;
    intros k' Hne; apply lookup_insert_ne; congruence.
Qed.

Lemma registration_binds_fresh_key_witness :
  let rd := register_dispatch 0 (VStr "TYPING_START") (Fn 7) fresh_session in
  let rm := register_message 0 (VInt 1) (Fn 8) fresh_session in
  (rd.2 = inr tt ∧ trace rd.1 = trace fresh_session ∧
   dispatch_registry rd.1 !! KStr "TYPING_START" = Some (Fn 7) ∧
   (∀ k', k' ≠ KStr "TYPING_START" →
      dispatch_registry rd.1 !! k' = dispatch_registry fresh_session !! k') ∧
   message_registry rd.1 = message_registry fresh_session) ∧
  (rm.2 = inr tt ∧ trace rm.1 = trace fresh_session ∧
   message_registry rm.1 !! KInt 1 = Some (Fn 8) ∧
   (∀ k', k' ≠ KInt 1 →
      message_registry rm.1 !! k' = message_registry fresh_session !! k') ∧
   dispatch_registry rm.1 = dispatch_registry fresh_session).
Proof.
  apply (registration_binds_fresh_key 0 (VStr "TYPING_START") (VInt 1)
           (KStr "TYPING_START") (KInt 1) (Fn 7) (Fn 8) fresh_session);
    reflexivity.
Defined.

(** A key that does not hash (a JSON array or object) makes both
    registrations raise [TypeError]; nothing is registered or printed. *)
Theorem registration_unhashable_key_raises (c : nat) (key : value)
    (f : callable) (w : world) :
  to_key key = None →
  register_dispatch c key f w = (w, inl TypeError) ∧
  register_message c key f w = (w, inl TypeError).
Proof.
  intros Hk. unfold register_dispatch, register_message, hash_key. munfold.
  rewrite Hk. split; reflexivity.
Qed.

Lemma registration_unhashable_key_raises_witness :
  register_dispatch 0 (VList [VStr "A"]) (Fn 7) fresh_session =
    (fresh_session, inl TypeError) ∧
  register_message 0 (VList [VStr "A"]) (Fn 7) fresh_session =
    (fresh_session, inl TypeError).
Proof.
  apply (registration_unhashable_key_raises 0 (VList [VStr "A"]) (Fn 7)
           fresh_session); reflexivity.
Defined.

(** Constructing a chat handler binds MESSAGE_CREATE to its
    [handle_message_create], with the re-registration warning when the event
    was bound already (to an earlier chat handler, say); from then on a
    MESSAGE_CREATE dispatch on any connection goes to the new handler. *)
Theorem chat_handler_takes_message_create ext_call (bc c : nat)
    (size : option Z) (message d : value) (w : world) :
  subscript message "t" = inr (VStr "MESSAGE_CREATE") →
  subscript message "d" = inr d →
  let r := new_chat_handler bc size w in
  let ch := length (chats w) in
  r.2 = inr ch ∧
  chats r.1 = chats w ++ [ChatHandler bc (default 3 size)] ∧
  dispatch_registry r.1 =
    <[KStr "MESSAGE_CREATE" := BoundHandleMessageCreate ch]>
      (dispatch_registry w) ∧
  trace r.1 =
    trace w ++
    (if dispatch_registry w !! KStr "MESSAGE_CREATE" is Some _
     then [EvPrint (WarnDispatchRereg (VStr "MESSAGE_CREATE")
                      (BoundHandleMessageCreate ch))]
     else []) ∧
  handle_dispatch ext_call c message r.1 =
    handle_message_create ext_call ch d r.1.
Proof.
  intros Ht Hd r ch. subst r ch.
  unfold new_chat_handler, register_dispatch, hash_key. munfold. simpl.
  destruct (dispatch_registry w !! KStr "MESSAGE_CREATE") as [f|] eqn:Hf;
    simpl.
  - repeat split.
    unfold handle_dispatch, handle_event, hash_key. munfold.
    rewrite Ht, Hd. simpl. rewrite lookup_insert_eq. reflexivity.
  - rewrite app_nil_r. repeat split.
    unfold handle_dispatch, handle_event, hash_key. munfold.
    rewrite Ht, Hd. simpl. rewrite lookup_insert_eq. reflexivity.
Qed.

Lemma chat_handler_takes_message_create_witness :
  let message :=
    received 0 (chat_message "C1" "U1" "ping") (VInt 3)
      (VStr "MESSAGE_CREATE") in
  let r := new_chat_handler 0 (Some 5) unready_chat in
  r.2 = inr 1%nat ∧
  chats r.1 = chats unready_chat ++ [ChatHandler 0 5] ∧
  dispatch_registry r.1 =
    <[KStr "MESSAGE_CREATE" := BoundHandleMessageCreate 1]>
      (dispatch_registry unready_chat) ∧
  trace r.1 =
    trace unready_chat ++
    (if dispatch_registry unready_chat !! KStr "MESSAGE_CREATE" is Some _
     then [EvPrint (WarnDispatchRereg (VStr "MESSAGE_CREATE")
                      (BoundHandleMessageCreate 1))]
     else []) ∧
  handle_dispatch quiet_ext 0 message r.1 =
    handle_message_create quiet_ext 1 (chat_message "C1" "U1" "ping") r.1.
Proof.
  apply (chat_handler_takes_message_create quiet_ext 0 0 (Some 5)
           (received 0 (chat_message "C1" "U1" "ping") (VInt 3)
              (VStr "MESSAGE_CREATE"))
           (chat_message "C1" "U1" "ping") unready_chat);
    reflexivity.
Defined.

(** A matcher that is registered with the same flag cannot be registered
    again: the warning's f-string reads the unbound name [expression], so
    the call raises [NameError] before it prints or appends anything. *)
Theorem duplicate_matcher_raises (ch : nat) (m f : fid) (nsr : bool)
    (w : world) :
  MatcherEntry m nsr ∈ (match_registry w).1 →
  register_match ch m f nsr w = (w, inl (NameError "expression")).
Proof.
  intros Hin. unfold register_match. munfold.
  rewrite bool_decide_eq_true_2 by exact Hin. reflexivity.
Qed.

Lemma duplicate_matcher_raises_witness :
  register_match 0 1 3 true unready_matching =
    (unready_matching, inl (NameError "expression")).
Proof.
  apply (duplicate_matcher_raises 0 1 3 true unready_matching).
  by apply (bool_decide_unpack _).
Defined.

(** ** The channel buffers *)

#[global] Instance same_buffers_preorder : PreOrder same_buffers.
Proof.
  split.
  - intros w. reflexivity.
  - intros w1 w2 w3 H1 H2. unfold same_buffers in *. congruence.
Qed.

Lemma same_buffers_modify f :
  (∀ w, channelBuffer (f w) = channelBuffer w) →
  preserves same_buffers (modify f).
Proof. intros Hf w. apply Hf. Qed.

Lemma same_buffers_match_loop ext_call self message ms i :
  preserves same_buffers (match_loop ext_call self message i ms).
Proof.
  revert i. induction ms as [|m ms IH]; intros i; simpl.
  - preserves_step.
  - unfold call_fn. repeat preserves_step;
      first [ apply IH | apply same_buffers_modify; reflexivity ].
Qed.

(** Buffering, run: the oldest entry of the channel's window leaves, the
    message enters; a channel seen for the first time starts from a window
    of [bufferSize] empty slots. *)
Lemma buffer_message_step (ch : nat) (h : chat_handler)
    (message cid : value) (k : hkey) (w : world) :
  chats w !! ch = Some h →
  0 < bufferSize h →
  subscript message "channel_id" = inr cid →
  to_key cid = Some k →
  (∀ l, channelBuffer w !! k = Some l → l ≠ []) →
  let old := default (replicate (Z.to_nat (bufferSize h)) VNone)
               (channelBuffer w !! k) in
  buffer_message ch message w =
    (set_channelBuffer
       (λ _, <[k := drop 1 old ++ [message]]> (channelBuffer w)) w,
     inr tt).
Proof.
  intros Hch Hsz Hcid Hk Hne old. subst old.
  unfold buffer_message, buffer_pop0, buffer_append, hash_key. munfold.
  rewrite Hch. destruct (Z.ltb_spec 0 (bufferSize h)); [|lia].
  rewrite Hcid, Hk.
  destruct (channelBuffer w !! k) as [l|] eqn:Hbuf; simpl.
  - rewrite Hbuf. destruct l as [|o l]; [by destruct (Hne [])|]. simpl.
    rewrite lookup_insert_eq. unfold set_channelBuffer. simpl.
    rewrite insert_insert_eq. rewrite drop_0. reflexivity.
  - rewrite lookup_insert_eq.
    destruct (Z.to_nat (bufferSize h)) as [|n] eqn:Hn; [lia|]. simpl.
    rewrite lookup_insert_eq. unfold set_channelBuffer. simpl.
    rewrite !insert_insert_eq, drop_0. reflexivity.
Qed.

(** The window of a channel slides by one and keeps its length; the windows
    of the other channels are not touched. *)
Theorem buffer_slides (ch : nat) (h : chat_handler)
    (message cid : value) (k : hkey) (w : world) :
  chats w !! ch = Some h →
  0 < bufferSize h →
  subscript message "channel_id" = inr cid →
  to_key cid = Some k →
  (∀ l, channelBuffer w !! k = Some l → l ≠ []) →
  let old := default (replicate (Z.to_nat (bufferSize h)) VNone)
               (channelBuffer w !! k) in
  let r := buffer_message ch message w in
  r.2 = inr tt ∧
  channelBuffer r.1 !! k = Some (drop 1 old ++ [message]) ∧
  length (drop 1 old ++ [message]) = length old ∧
  ∀ k', k' ≠ k → channelBuffer r.1 !! k' = channelBuffer w !! k'.
Proof.
  intros Hch Hsz Hcid Hk Hne old r. subst r.
  rewrite (buffer_message_step ch h message cid k w Hch Hsz Hcid Hk Hne).
  simpl. split; [reflexivity|]. split; [apply lookup_insert_eq|]. split.
  - fold old. rewrite length_app, length_drop. simpl.
    assert (0 < length old)%nat; [|lia].
    subst old. destruct (channelBuffer w !! k) as [l|] eqn:Hbuf; simpl.
    + destruct l; [by destruct (Hne [])|]. simpl. lia.
    + rewrite length_replicate. lia.
  - intros k' Hne'. apply lookup_insert_ne. congruence.
Qed.

Lemma buffer_slides_witness :
  let m := chat_message "C1" "U1" "one" in
  let old := default (replicate (Z.to_nat 3) VNone)
               (channelBuffer two_chats !! KStr "C1") in
  let r := buffer_message 0 m two_chats in
  r.2 = inr tt ∧
  channelBuffer r.1 !! KStr "C1" = Some (drop 1 old ++ [m]) ∧
  length (drop 1 old ++ [m]) = length old ∧
  ∀ k', k' ≠ KStr "C1" →
    channelBuffer r.1 !! k' = channelBuffer two_chats !! k'.
Proof.
  apply (buffer_slides 0 (ChatHandler 0 3) (chat_message "C1" "U1" "one")
           (VStr "C1") (KStr "C1") two_chats);
    first [ reflexivity | vm_compute; intros l H; injection H as <-; discriminate ].
Defined.

(** With a buffer size of zero or less nothing is buffered, and a message
    needs no [channel_id]. *)
Theorem buffering_disabled (ch : nat) (h : chat_handler) (message : value)
    (w : world) :
  chats w !! ch = Some h →
  bufferSize h ≤ 0 →
  buffer_message ch message w = (w, inr tt).
Proof.
  intros Hch Hsz. unfold buffer_message. munfold. rewrite Hch.
  destruct (Z.ltb_spec 0 (bufferSize h)); [lia|]. reflexivity.
Qed.

Lemma buffering_disabled_witness :
  let w := (new_chat_handler 0 (Some 0) fresh_session).1 in
  buffer_message 0 (VDict []) w = (w, inr tt).
Proof.
  apply (buffering_disabled 0 (ChatHandler 0 0) (VDict [])
           (new_chat_handler 0 (Some 0) fresh_session).1);
    [reflexivity | vm_compute; discriminate].
Defined.

(** With buffering on, a message without a [channel_id], or with one that
    does not hash, makes [handle_message_create] raise ([KeyError] or
    [TypeError]) before anything is buffered or matched. *)
Theorem message_without_channel_raises ext_call (ch : nat) (h : chat_handler)
    (message : value) (w : world) :
  chats w !! ch = Some h →
  0 < bufferSize h →
  (∀ cid, subscript message "channel_id" = inr cid → to_key cid = None) →
  ∃ e, handle_message_create ext_call ch message w = (w, inl e) ∧
       e = match subscript message "channel_id" with
           | inl e' => e'
           | inr _ => TypeError
           end.
Proof.
  intros Hch Hsz Hbad.
  unfold handle_message_create, buffer_message, hash_key. munfold.
  rewrite Hch. destruct (Z.ltb_spec 0 (bufferSize h)); [|lia].
  destruct (subscript message "channel_id") as [e|cid]; simpl.
  - eauto.
  - rewrite (Hbad cid eq_refl). eauto.
Qed.

Lemma message_without_channel_raises_witness :
  let m := VDict [("author", VDict [("id", VStr "U1")])] in
  ∃ e, handle_message_create quiet_ext 0 m abc_chat = (abc_chat, inl e) ∧
       e = match subscript m "channel_id" with
           | inl e' => e'
           | inr _ => TypeError
           end.
Proof.
  apply (message_without_channel_raises quiet_ext 0 (ChatHandler 0 3)
           (VDict [("author", VDict [("id", VStr "U1")])]) abc_chat);
    first [ reflexivity | intros cid H; discriminate H ].
Defined.

(** Matching never writes a buffer: whether or not the matching of a
    message raises, the buffers are as buffering left them. *)
Theorem matching_leaves_buffers ext_call (ch : nat) (message : value)
    (w : world) :
  channelBuffer (handle_message_create ext_call ch message w).1 =
  channelBuffer (buffer_message ch message w).1.
Proof.
  unfold handle_message_create. rewrite run_bind.
  destruct (buffer_message ch message w) as [w1 [e|[]]]; [reflexivity|].
  simpl.
  match goal with
  | |- context [ (?m ≫= ?k) w1 ] =>
      assert (H : preserves same_buffers (m ≫= k))
        by (repeat preserves_step; apply same_buffers_match_loop);
      exact (H w1)
  end.
Qed.

Lemma handle_message_create_no_matchers ext_call (ch : nat) (message : value)
    (w : world) :
  (match_registry w).1 = [] →
  handle_message_create ext_call ch message w = buffer_message ch message w.
Proof.
  intros Hreg. unfold handle_message_create. rewrite run_bind.
  destruct (buffer_message_frame ch message w) as (_ & _ & Hmr & _).
  destruct (buffer_message ch message w) as [w1 [e|[]]]; [reflexivity|].
  simpl in Hmr. rewrite run_bind. unfold gets. rewrite Hmr, Hreg. reflexivity.
Qed.

Lemma deliver_slides_from ext_call (ch : nat) (h : chat_handler) (cid : value)
    (k : hkey) (ms : list value) :
  ∀ (old : list value) (w : world),
  chats w !! ch = Some h →
  0 < bufferSize h →
  (match_registry w).1 = [] →
  Forall (λ m, subscript m "channel_id" = inr cid) ms →
  to_key cid = Some k →
  channelBuffer w !! k = Some old →
  old ≠ [] →
  ∃ w',
    deliver ext_call ch ms w = (w', inr tt) ∧
    channelBuffer w' !! k = Some (drop (length ms) (old ++ ms)).
Proof.
  induction ms as [|m ms IH]; intros old w Hch Hsz Hreg Hall Hk Hbuf Hne.
  - exists w. split; [reflexivity|]. simpl. by rewrite app_nil_r, drop_0.
  - apply Forall_cons in Hall as [Hm Hall]. simpl. rewrite run_bind.
    rewrite (handle_message_create_no_matchers ext_call ch m w Hreg).
    rewrite (buffer_message_step ch h m cid k w Hch Hsz Hm Hk).
    2:{ intros l Hl. congruence. }
    rewrite Hbuf. simpl.
    match goal with |- context [ deliver _ _ _ ?w0 ] =>
      destruct (IH (drop 1 old ++ [m]) w0) as (w' & Hrun & Hres);
        try assumption
    end.
    + simpl. apply lookup_insert_eq.
    + destruct (drop 1 old); discriminate.
    + exists w'. split; [exact Hrun|]. rewrite Hres. f_equal.
      destruct old as [|o old']; [done|]. simpl.
      rewrite <- app_assoc. reflexivity.
Qed.

(** A window keeps the latest messages: after the messages [m :: ms] of a
    channel seen for the first time, with no matcher registered, the
    channel's window is the last [bufferSize] entries of the empty slots
    followed by the messages, the oldest dropped first. *)
Theorem deliver_keeps_latest ext_call (ch : nat) (h : chat_handler)
    (cid m : value) (k : hkey) (ms : list value) (w : world) :
  chats w !! ch = Some h →
  0 < bufferSize h →
  (match_registry w).1 = [] →
  Forall (λ m', subscript m' "channel_id" = inr cid) (m :: ms) →
  to_key cid = Some k →
  channelBuffer w !! k = None →
  ∃ w',
    deliver ext_call ch (m :: ms) w = (w', inr tt) ∧
    channelBuffer w' !! k =
      Some (drop (length (m :: ms))
              (replicate (Z.to_nat (bufferSize h)) VNone ++ m :: ms)).
Proof.
  intros Hch Hsz Hreg Hall Hk Hbuf.
  apply Forall_cons in Hall as [Hm Hall].
  change (deliver ext_call ch (m :: ms) w)
    with ((handle_message_create ext_call ch m
             ≫= λ _, deliver ext_call ch ms) w).
  rewrite run_bind.
  rewrite (handle_message_create_no_matchers ext_call ch m w Hreg).
  rewrite (buffer_message_step ch h m cid k w Hch Hsz Hm Hk).
  2:{ intros l Hl. congruence. }
  rewrite Hbuf. simpl default.
  set (init := replicate (Z.to_nat (bufferSize h)) VNone).
  assert (Hinit : init ≠ []).
  { subst init. destruct (Z.to_nat (bufferSize h)) eqn:Hn; [lia|]. done. }
  match goal with |- context [ deliver _ _ _ ?w0 ] =>
    destruct (deliver_slides_from ext_call ch h cid k ms
                (drop 1 init ++ [m]) w0) as (w' & Hrun & Hres);
      try assumption
  end.
  - simpl. apply lookup_insert_eq.
  - destruct (drop 1 init); discriminate.
  - exists w'. split; [exact Hrun|]. rewrite Hres. f_equal.
    destruct init as [|o init']; [done|]. simpl.
    rewrite <- app_assoc. reflexivity.
Qed.

Lemma deliver_keeps_latest_witness :
  let m1 := chat_message "C1" "U1" "one" in
  let m2 := chat_message "C1" "U2" "two" in
  let m3 := chat_message "C1" "U1" "three" in
  let m4 := chat_message "C1" "U2" "four" in
  ∃ w',
    deliver quiet_ext 0 [m1; m2; m3; m4] unready_chat = (w', inr tt) ∧
    channelBuffer w' !! KStr "C1" =
      Some (drop (length [m1; m2; m3; m4])
              (replicate (Z.to_nat 3) VNone ++ [m1; m2; m3; m4])).
Proof.
  apply (deliver_keeps_latest quiet_ext 0 (ChatHandler 0 3) (VStr "C1")
           (chat_message "C1" "U1" "one") (KStr "C1")
           [chat_message "C1" "U2" "two"; chat_message "C1" "U1" "three";
            chat_message "C1" "U2" "four"] unready_chat);
    first [ reflexivity | repeat constructor ].
Defined.

(** ** Matching *)

(** On a message of the bot's own, a loop over matchers that all have
    [no_self_respond] set calls nothing. *)
Lemma match_loop_all_suppressed ext_call (ch : nat) (h : chat_handler)
    (x : connection) (message a aid uid : value) (ms : list matcher_entry)
    (i : nat) (w : world) :
  chats w !! ch = Some h →
  conns w !! bot_connection h = Some x →
  subscript message "author" = inr a →
  subscript a "id" = inr aid →
  subscript (user x) "id" = inr uid →
  py_eq aid uid = true →
  Forall (λ m, no_self_respond m = true) ms →
  match_loop ext_call ch message i ms w = (w, inr tt).
Proof.
  intros Hch Hc Ha Haid Huid Heq Hall. revert i.
  induction Hall as [|m ms Hm _ IH]; intros i; [reflexivity|].
  simpl. munfold. rewrite Ha, Haid, Hch, Hc, Huid, Heq, Hm. simpl.
  apply IH.
Qed.

(** Self-message suppression: when every registered matcher has
    [no_self_respond] set, a message whose author id equals the id of the
    bot's user is buffered and nothing else: no predicate is evaluated. *)
Theorem own_messages_skip_guarded_matchers ext_call (ch : nat)
    (h : chat_handler) (x : connection) (message a aid uid : value)
    (w : world) :
  chats w !! ch = Some h →
  conns w !! bot_connection h = Some x →
  subscript message "author" = inr a →
  subscript a "id" = inr aid →
  subscript (user x) "id" = inr uid →
  py_eq aid uid = true →
  Forall (λ m, no_self_respond m = true) (match_registry w).1 →
  handle_message_create ext_call ch message w = buffer_message ch message w.
Proof.
  intros Hch Hc Ha Haid Huid Heq Hall.
  unfold handle_message_create. rewrite run_bind.
  destruct (buffer_message_frame ch message w) as (Hconns & Hchats & Hmr & _).
  destruct (buffer_message ch message w) as [w1 [e|[]]]; [reflexivity|].
  simpl in *. rewrite run_bind. unfold gets. rewrite Hmr.
  apply (match_loop_all_suppressed ext_call ch h x message a aid uid);
    try assumption; congruence.
Qed.

Lemma own_messages_skip_guarded_matchers_witness :
  handle_message_create abc_ext 0 (chat_message "C1" "U0" "ping") abc_chat =
  buffer_message 0 (chat_message "C1" "U0" "ping") abc_chat.
Proof.
  apply (own_messages_skip_guarded_matchers abc_ext 0 (ChatHandler 0 3)
           ready_connection (chat_message "C1" "U0" "ping")
           (VDict [("id", VStr "U0")]) (VStr "U0") (VStr "U0") abc_chat);
    first [ reflexivity | repeat constructor ].
Defined.

(** Suppression is per entry: on a message of the bot's own, a matcher
    registered with [no_self_respond=False] is evaluated, and its handler,
    the one at its own index, is called, while the guarded matcher before
    it is skipped. *)
Theorem own_messages_reach_unguarded_matchers ext_call (ch : nat)
    (h : chat_handler) (x : connection) (message a aid uid : value)
    (pA hA pB hB : fid) (rB vB : value) (w : world) :
  chats w !! ch = Some h →
  conns w !! bot_connection h = Some x →
  match_registry w =
    ([MatcherEntry pA true; MatcherEntry pB false], [hA; hB]) →
  (buffer_message ch message w).2 = inr tt →
  subscript message "author" = inr a →
  subscript a "id" = inr aid →
  subscript (user x) "id" = inr uid →
  py_eq aid uid = true →
  ext_call pB message = inr rB →
  truthy rB = true →
  ext_call hB message = inr vB →
  let r := handle_message_create ext_call ch message w in
  r.2 = inr tt ∧
  trace r.1 = trace w ++
    [EvCall pB message; EvRet pB rB; EvCall hB message; EvRet hB vB].
Proof.
  intros Hch Hc Hreg Hbuf Ha Haid Huid Heq HpB HtB HhB r. subst r.
  unfold handle_message_create. rewrite run_bind.
  destruct (buffer_message_frame ch message w) as (Hconns & Hchats & Hmr & Htr).
  destruct (buffer_message ch message w) as [w' [e|[]]]; simpl in *;
    [discriminate|].
  rewrite Hreg in Hmr.
  rewrite run_bind. unfold gets at 1. simpl. rewrite Hmr. simpl.
  unfold call_fn. munfold. simpl.
  repeat (progress (rewrite ?Ha, ?Haid, ?Hchats, ?Hch, ?Hconns, ?Hc, ?Huid,
                      ?Hmr, ?Heq, ?HpB, ?HtB, ?HhB; simpl)).
  rewrite Htr, <- !app_assoc. split; reflexivity.
Qed.

Lemma own_messages_reach_unguarded_matchers_witness :
  let m := chat_message "C1" "U0" "ping" in
  let r := handle_message_create abc_ext 0 m guarded_chat in
  r.2 = inr tt ∧
  trace r.1 = trace guarded_chat ++
    [EvCall 5 m; EvRet 5 (VStr "yes"); EvCall 6 m; EvRet 6 VNone].
Proof.
  apply (own_messages_reach_unguarded_matchers abc_ext 0 (ChatHandler 0 3)
           ready_connection (chat_message "C1" "U0" "ping")
           (VDict [("id", VStr "U0")]) (VStr "U0") (VStr "U0")
           1%nat 2%nat 5%nat 6%nat (VStr "yes") VNone guarded_chat);
    reflexivity.
Defined.

(** A predicate that raises ends the loop: the exception leaves
    [handle_message_create] and no later matcher is evaluated. *)
Theorem failing_predicate_aborts_matching ext_call (ch : nat)
    (h : chat_handler) (x : connection) (message a aid uid : value)
    (m : matcher_entry) (ms : list matcher_entry) (fs : list fid)
    (e : exn) (w : world) :
  chats w !! ch = Some h →
  conns w !! bot_connection h = Some x →
  match_registry w = (m :: ms, fs) →
  (buffer_message ch message w).2 = inr tt →
  subscript message "author" = inr a →
  subscript a "id" = inr aid →
  subscript (user x) "id" = inr uid →
  py_eq aid uid && no_self_respond m = false →
  ext_call (matcher m) message = inl e →
  let r := handle_message_create ext_call ch message w in
  r.2 = inl e ∧ trace r.1 = trace w ++ [EvCall (matcher m) message].
Proof.
  intros Hch Hc Hreg Hbuf Ha Haid Huid Hs Hp r. subst r.
  unfold handle_message_create. rewrite run_bind.
  destruct (buffer_message_frame ch message w) as (Hconns & Hchats & Hmr & Htr).
  destruct (buffer_message ch message w) as [w' [e'|[]]]; simpl in *;
    [discriminate|].
  rewrite Hreg in Hmr.
  rewrite run_bind. unfold gets at 1. simpl. rewrite Hmr.
  cbn [fst match_loop]. unfold call_fn. munfold.
  rewrite Ha, Haid, Hchats, Hch, Hconns, Hc, Huid, Hs. simpl. rewrite Hp.
  simpl. rewrite Htr. split; reflexivity.
Qed.

Lemma failing_predicate_aborts_matching_witness :
  let m := chat_message "C1" "U1" "ping" in
  let r := handle_message_create failing_ext 0 m abc_chat in
  r.2 = inl (UserError 1) ∧ trace r.1 = trace abc_chat ++ [EvCall 1 m].
Proof.
  apply (failing_predicate_aborts_matching failing_ext 0 (ChatHandler 0 3)
           ready_connection (chat_message "C1" "U1" "ping")
           (VDict [("id", VStr "U1")]) (VStr "U1") (VStr "U0")
           (MatcherEntry 1 true) [MatcherEntry 3 true; MatcherEntry 5 true]
           [2%nat; 4%nat; 6%nat] (UserError 1) abc_chat);
    reflexivity.
Defined.

(** A handler that raises ends the loop as well: the exception leaves
    [handle_message_create] and no later matcher is evaluated. *)
Theorem failing_handler_aborts_matching ext_call (ch : nat)
    (h : chat_handler) (x : connection) (message a aid uid r0 : value)
    (m : matcher_entry) (ms : list matcher_entry) (f : fid) (fs : list fid)
    (e : exn) (w : world) :
  chats w !! ch = Some h →
  conns w !! bot_connection h = Some x →
  match_registry w = (m :: ms, f :: fs) →
  (buffer_message ch message w).2 = inr tt →
  subscript message "author" = inr a →
  subscript a "id" = inr aid →
  subscript (user x) "id" = inr uid →
  py_eq aid uid && no_self_respond m = false →
  ext_call (matcher m) message = inr r0 →
  truthy r0 = true →
  ext_call f message = inl e →
  let r := handle_message_create ext_call ch message w in
  r.2 = inl e ∧
  trace r.1 = trace w ++
    [EvCall (matcher m) message; EvRet (matcher m) r0; EvCall f message].
Proof.
  intros Hch Hc Hreg Hbuf Ha Haid Huid Hs Hp Ht Hf r. subst r.
  unfold handle_message_create. rewrite run_bind.
  destruct (buffer_message_frame ch message w) as (Hconns & Hchats & Hmr & Htr).
  destruct (buffer_message ch message w) as [w' [e'|[]]]; simpl in *;
    [discriminate|].
  rewrite Hreg in Hmr.
  rewrite run_bind. unfold gets at 1. simpl. rewrite Hmr.
  cbn [fst match_loop]. unfold call_fn. munfold.
  repeat (progress (rewrite ?Ha, ?Haid, ?Hchats, ?Hch, ?Hconns, ?Hc, ?Huid,
                      ?Hs, ?Hp, ?Ht, ?Hmr, ?Hf; simpl)).
  rewrite Htr, <- !app_assoc. split; reflexivity.
Qed.

Lemma failing_handler_aborts_matching_witness :
  let m := chat_message "C1" "U1" "ping" in
  let r := handle_message_create bad_handler_ext 0 m abc_chat in
  r.2 = inl (UserError 2) ∧
  trace r.1 = trace abc_chat ++
    [EvCall 1 m; EvRet 1 (VBool true); EvCall 2 m].
Proof.
  apply (failing_handler_aborts_matching bad_handler_ext 0 (ChatHandler 0 3)
           ready_connection (chat_message "C1" "U1" "ping")
           (VDict [("id", VStr "U1")]) (VStr "U1") (VStr "U0") (VBool true)
           (MatcherEntry 1 true) [MatcherEntry 3 true; MatcherEntry 5 true]
           2%nat [4%nat; 6%nat] (UserError 2) abc_chat);
    reflexivity.
Defined.

(** ** Heartbeats and their acknowledgement *)

(** Turns that start with [ack] false. *)
Lemma heartbeat_unacknowledged_run (n : nat) (c : nat) (interval : value)
    (ms : Z) :
  ∀ (w : world) (x : connection),
  conns w !! c = Some x →
  ack x = false →
  as_number interval = inr ms →
  ∃ w',
    heartbeat n c interval w = (w', inr tt) ∧
    trace w' =
      trace w ++ concat (replicate n (unacknowledged_turn c (sequence x) ms)) ∧
    conns w' = conns w.
Proof.
  induction n as [|n IH]; intros w x Hc Hack Hi.
  - exists w. simpl. by rewrite app_nil_r.
  - simpl. rewrite run_bind, (heartbeat_iter_run c interval w x ms Hc Hi).
    rewrite Hack.
    match goal with |- context [ heartbeat n c interval ?w0 ] =>
      destruct (IH w0 (set_ack false x)) as (w' & Hrun & Htr & Hconns)
    end; try assumption; try reflexivity.
    { simpl. apply list_lookup_insert_eq. eapply lookup_lt_Some; eassumption. }
    exists w'. split; [exact Hrun|]. split.
    + rewrite Htr. simpl. rewrite <- !app_assoc. reflexivity.
    + rewrite Hconns. simpl. apply list_insert_id.
      rewrite Hc. f_equal. destruct x; unfold set_ack; simpl in *.
      subst. reflexivity.
Qed.

(** A missing HEARTBEAT_ACK is logged and nothing more: left alone, the
    loop returns from every turn, sends a heartbeat in each, and from the
    second turn on prints the liveness failure before it; it neither stops
    nor reconnects. *)
Theorem unacknowledged_heartbeats_only_log (n : nat) (c : nat)
    (interval : value) (ms : Z) (w : world) (x : connection) :
  conns w !! c = Some x →
  as_number interval = inr ms →
  ∃ w',
    heartbeat (S n) c interval w = (w', inr tt) ∧
    trace w' =
      trace w ++
      (if ack x then [] else [EvPrint FatalNoAck]) ++
      [EvSend c (heartbeat_envelope (sequence x)); EvSleep c ms] ++
      concat (replicate n (unacknowledged_turn c (sequence x) ms)).
Proof.
  intros Hc Hi.
  change (heartbeat (S n) c interval w)
    with ((heartbeat_iter c interval ≫= λ _, heartbeat n c interval) w).
  rewrite run_bind, (heartbeat_iter_run c interval w x ms Hc Hi).
  match goal with |- context [ heartbeat n c interval ?w0 ] =>
    destruct (heartbeat_unacknowledged_run n c interval ms w0
                (set_ack false x)) as (w' & Hrun & Htr & _)
  end; try assumption; try reflexivity.
  { simpl. apply list_lookup_insert_eq.
    destruct (ack x); simpl; eapply lookup_lt_Some; eassumption. }
  exists w'. split; [exact Hrun|]. rewrite Htr. simpl.
  destruct (ack x); simpl; rewrite <- !app_assoc; reflexivity.
Qed.

Lemma unacknowledged_heartbeats_only_log_witness :
  ∃ w',
    heartbeat 3 0 (VInt 41250) fresh_session = (w', inr tt) ∧
    trace w' =
      trace fresh_session ++
      (if ack (Connection "T" VNone VNone true VNone) then []
       else [EvPrint FatalNoAck]) ++
      [EvSend 0 (heartbeat_envelope VNone); EvSleep 0 41250] ++
      concat (replicate 2 (unacknowledged_turn 0 VNone 41250)).
Proof.
  apply (unacknowledged_heartbeats_only_log 2 0 (VInt 41250) 41250
           fresh_session (Connection "T" VNone VNone true VNone));
    reflexivity.
Defined.

(** The steps of a heartbeat turn leave [ack] false during the sleep; a
    HEARTBEAT_ACK envelope handled while the turn sleeps sets it back to
    true; the check of the turn after that prints no liveness failure and
    sends its heartbeat. *)
Theorem acknowledged_heartbeat_is_quiet ext_call (c : nat)
    (interval message : value) (ms : Z) (w : world) (x : connection) :
  conns w !! c = Some x →
  as_number interval = inr ms →
  subscript message "op" = inr (VInt opcodes.HEARTBEAT_ACK) →
  let w1 := (hb_step c interval AtCheck w).1 in
  let w2 := (hb_step c interval AtReset w1).1 in
  let w3 := (hb_step c interval AtSleep w2).1 in
  let w4 := (handle_message ext_call c message w3).1 in
  ack <$> conns w3 !! c = Some false ∧
  ack <$> conns w4 !! c = Some true ∧
  hb_step c interval AtCheck w4 =
    (set_trace (λ t, t ++ [EvSend c (heartbeat_envelope (sequence x))]) w4,
     inr AtReset).
Proof.
  intros Hc Hi Hop.
  destruct (hb_steps_run c interval w x ms Hc Hi) as (H1 & H2 & H3 & Hcb).
  cbv zeta. rewrite H1. cbn [fst]. rewrite H2. cbn [fst]. rewrite H3.
  cbn [fst].
  match goal with |- context [ handle_message _ _ _ ?w0 ] =>
    set (w3 := w0)
  end.
  assert (Hc3 : conns w3 !! c = Some (set_ack false x)).
  { subst w3. simpl. apply list_lookup_insert_eq.
    destruct (ack x); simpl; eapply lookup_lt_Some; eassumption. }
  clearbody w3.
  assert (Hc4 : conns (handle_message ext_call c message w3).1 !! c
                = Some (set_ack true (set_ack false x))).
  { unfold handle_message, handle_opcode, hash_key. munfold.
    rewrite Hop. simpl. rewrite Hc3.
    destruct (message_registry _ !! _) as [f|]; simpl.
    - rewrite (same_conns_call ext_call f message _). simpl.
      apply list_lookup_insert_eq. eapply lookup_lt_Some; eassumption.
    - apply list_lookup_insert_eq. eapply lookup_lt_Some; eassumption. }
  split; [by rewrite Hc3|]. split; [by rewrite Hc4|].
  unfold hb_step. munfold. rewrite Hc4. reflexivity.
Qed.

Lemma acknowledged_heartbeat_is_quiet_witness :
  let w1 := (hb_step 0 (VInt 41250) AtCheck fresh_session).1 in
  let w2 := (hb_step 0 (VInt 41250) AtReset w1).1 in
  let w3 := (hb_step 0 (VInt 41250) AtSleep w2).1 in
  let w4 := (handle_message quiet_ext 0 heartbeat_ack w3).1 in
  ack <$> conns w3 !! 0%nat = Some false ∧
  ack <$> conns w4 !! 0%nat = Some true ∧
  hb_step 0 (VInt 41250) AtCheck w4 =
    (set_trace (λ t, t ++ [EvSend 0 (heartbeat_envelope VNone)]) w4,
     inr AtReset).
Proof.
  apply (acknowledged_heartbeat_is_quiet quiet_ext 0 (VInt 41250)
           heartbeat_ack 41250 fresh_session
           (Connection "T" VNone VNone true VNone));
    reflexivity.
Defined.

(** An interval that is not a number (a string, say) ends the loop in its
    first turn: the heartbeat is sent, [ack] is reset, and
    [interval / 1000] raises [TypeError]. *)
Theorem heartbeat_dies_on_bad_interval (n : nat) (c : nat) (interval : value)
    (w : world) (x : connection) :
  conns w !! c = Some x →
  as_number interval = inl TypeError →
  let r := heartbeat (S n) c interval w in
  r.2 = inl TypeError ∧
  trace r.1 =
    trace w ++ (if ack x then [] else [EvPrint FatalNoAck]) ++
    [EvSend c (heartbeat_envelope (sequence x))] ∧
  ack <$> conns r.1 !! c = Some false.
Proof.
  intros Hc Hi r. subst r.
  change (heartbeat (S n) c interval w)
    with ((heartbeat_iter c interval ≫= λ _, heartbeat n c interval) w).
  rewrite run_bind. unfold heartbeat_iter. munfold. rewrite Hc.
  destruct (ack x); simpl; rewrite Hc, Hi; simpl;
    (split; [reflexivity|]); (split; [by rewrite <- ?app_assoc|]);
    rewrite list_lookup_insert_eq by (eapply lookup_lt_Some; eassumption);
    reflexivity.
Qed.

Lemma heartbeat_dies_on_bad_interval_witness :
  let r := heartbeat 5 0 (VStr "41250") fresh_session in
  r.2 = inl TypeError ∧
  trace r.1 =
    trace fresh_session ++
    (if ack (Connection "T" VNone VNone true VNone) then []
     else [EvPrint FatalNoAck]) ++
    [EvSend 0 (heartbeat_envelope VNone)] ∧
  ack <$> conns r.1 !! 0%nat = Some false.
Proof.
  apply (heartbeat_dies_on_bad_interval 4 0 (VStr "41250") fresh_session
           (Connection "T" VNone VNone true VNone));
    reflexivity.
Defined.

(** An integer interval whose quotient by 1000 is too large for a float
    ends the loop in its first turn as well: the heartbeat is sent, [ack]
    is reset, and [interval / 1000] raises [OverflowError]. *)
Theorem heartbeat_dies_on_huge_interval (n : nat) (c : nat) (z : Z)
    (w : world) (x : connection) :
  conns w !! c = Some x →
  division_overflow ≤ Z.abs z →
  let r := heartbeat (S n) c (VInt z) w in
  r.2 = inl OverflowError ∧
  trace r.1 =
    trace w ++ (if ack x then [] else [EvPrint FatalNoAck]) ++
    [EvSend c (heartbeat_envelope (sequence x))] ∧
  ack <$> conns r.1 !! c = Some false.
Proof.
  intros Hc Hz r. subst r.
  assert (Hi : as_number (VInt z) = inl OverflowError).
  { unfold as_number. destruct (Z.ltb_spec (Z.abs z) division_overflow);
      [lia | reflexivity]. }
  set (interval := VInt z) in *. clearbody interval.
  change (heartbeat (S n) c interval w)
    with ((heartbeat_iter c interval ≫= λ _, heartbeat n c interval) w).
  rewrite run_bind. unfold heartbeat_iter. munfold. rewrite Hc.
  destruct (ack x); simpl; rewrite Hc, Hi; simpl;
    (split; [reflexivity|]); (split; [by rewrite <- ?app_assoc|]);
    rewrite list_lookup_insert_eq by (eapply lookup_lt_Some; eassumption);
    reflexivity.
Qed.

Lemma heartbeat_dies_on_huge_interval_witness :
  let r := heartbeat 5 0 (VInt (10 ^ 400)) fresh_session in
  r.2 = inl OverflowError ∧
  trace r.1 =
    trace fresh_session ++
    (if ack (Connection "T" VNone VNone true VNone) then []
     else [EvPrint FatalNoAck]) ++
    [EvSend 0 (heartbeat_envelope VNone)] ∧
  ack <$> conns r.1 !! 0%nat = Some false.
Proof.
  apply (heartbeat_dies_on_huge_interval 4 0 (10 ^ 400) fresh_session
           (Connection "T" VNone VNone true VNone));
    [reflexivity | vm_compute; discriminate].
Defined.

(** ** Envelopes *)

(** The opcodes HEARTBEAT, RECONNECT and INVALID_SESSION have empty
    branches: with no handler registered for the opcode, the envelope
    changes nothing; in particular the session neither reconnects nor
    identifies again. *)
Theorem ignored_opcodes_change_nothing ext_call (c : nat) (message : value)
    (z : Z) (w : world) :
  subscript message "op" = inr (VInt z) →
  z = opcodes.HEARTBEAT ∨ z = opcodes.RECONNECT ∨ z = opcodes.INVALID_SESSION →
  message_registry w !! KInt z = None →
  handle_message ext_call c message w = (w, inr tt).
Proof.
  intros Hop Hz Hf. unfold handle_message, handle_opcode, hash_key. munfold.
  rewrite Hop.
  destruct Hz as [-> | [-> | ->]]; simpl; rewrite Hf; reflexivity.
Qed.

Lemma ignored_opcodes_change_nothing_witness :
  handle_message quiet_ext 0 (received 7 VNone VNone VNone) fresh_session =
  (fresh_session, inr tt).
Proof.
  apply (ignored_opcodes_change_nothing quiet_ext 0
           (received 7 VNone VNone VNone) 7 fresh_session);
    first [ reflexivity | right; left; reflexivity ].
Defined.

(** The opcodes 2 to 6 and 8 are in the opcode table but have no branch:
    they too end in the last branch and raise [NameError]. *)
Theorem documented_opcodes_raise ext_call (c : nat) (message : value)
    (z : Z) (w : world) :
  subscript message "op" = inr (VInt z) →
  opcodes.IDENTIFY ≤ z ≤ opcodes.RESUME ∨ z = opcodes.REQUEST_GUILD_MEMBERS →
  handle_message ext_call c message w = (w, inl (NameError "op")).
Proof.
  intros Hop Hz. unfold handle_message, handle_opcode. munfold.
  rewrite Hop. simpl.
  unfold opcodes.DISPATCH, opcodes.HEARTBEAT, opcodes.RECONNECT,
    opcodes.INVALID_SESSION, opcodes.HELLO, opcodes.HEARTBEAT_ACK,
    opcodes.IDENTIFY, opcodes.RESUME, opcodes.REQUEST_GUILD_MEMBERS in *.
  repeat match goal with
         | |- context [?a =? ?b] => destruct (Z.eqb_spec a b); [lia|]
         end.
  reflexivity.
Qed.

Lemma documented_opcodes_raise_witness :
  handle_message quiet_ext 0 (received 3 VNone VNone VNone) fresh_session =
  (fresh_session, inl (NameError "op")).
Proof.
  apply (documented_opcodes_raise quiet_ext 0
           (received 3 VNone VNone VNone) 3 fresh_session);
    first [ reflexivity | left; vm_compute; split; discriminate ].
Defined.

(** A dispatch envelope without an [s] entry raises [KeyError] at
    [message['s']], before [handle_dispatch]: the event is not dispatched. *)
Theorem dispatch_without_s_raises ext_call (c : nat) (message : value)
    (e : exn) (w : world) :
  subscript message "op" = inr (VInt opcodes.DISPATCH) →
  subscript message "s" = inl e →
  handle_message ext_call c message w = (w, inl e).
Proof.
  intros Hop Hs. unfold handle_message, handle_opcode. munfold.
  rewrite Hop. simpl. rewrite Hs. reflexivity.
Qed.

Lemma dispatch_without_s_raises_witness :
  let m := VDict [("op", VInt 0); ("d", VDict []);
                  ("t", VStr "TYPING_START")] in
  handle_message quiet_ext 0 m dispatch_registered =
  (dispatch_registered, inl (KeyError (VStr "s"))).
Proof.
  apply (dispatch_without_s_raises quiet_ext 0
           (VDict [("op", VInt 0); ("d", VDict []);
                   ("t", VStr "TYPING_START")])
           (KeyError (VStr "s")) dispatch_registered);
    reflexivity.
Defined.

(** A Hello whose payload has no [heartbeat_interval] raises; nothing is
    printed and no heartbeat loop is scheduled. *)
Theorem hello_without_interval_raises ext_call (c : nat) (message d : value)
    (e : exn) (w : world) :
  subscript message "op" = inr (VInt opcodes.HELLO) →
  subscript message "d" = inr d →
  subscript d "heartbeat_interval" = inl e →
  handle_message ext_call c message w = (w, inl e).
Proof.
  intros Hop Hd Hi. unfold handle_message, handle_opcode. munfold.
  rewrite Hop. simpl. rewrite Hd, Hi. reflexivity.
Qed.

Lemma hello_without_interval_raises_witness :
  handle_message quiet_ext 0 (received 10 (VDict []) VNone VNone)
    fresh_session =
  (fresh_session, inl (KeyError (VStr "heartbeat_interval"))).
Proof.
  apply (hello_without_interval_raises quiet_ext 0
           (received 10 (VDict []) VNone VNone) (VDict [])
           (KeyError (VStr "heartbeat_interval")) fresh_session);
    reflexivity.
Defined.

(** Nothing guards against a repeated Hello: each of [n] Hello envelopes
    schedules one more heartbeat loop. *)
Theorem every_hello_spawns_a_heartbeat ext_call (n : nat) (c : nat)
    (message d interval : value) (w : world) :
  subscript message "op" = inr (VInt opcodes.HELLO) →
  subscript message "d" = inr d →
  subscript d "heartbeat_interval" = inr interval →
  message_registry w !! KInt opcodes.HELLO = None →
  read_loop ext_call c (replicate n message) w =
    (set_trace (λ t, t ++ concat (replicate n (hello_events c interval))) w,
     inr tt).
Proof.
  intros Hop Hd Hi Hreg. revert w Hreg.
  induction n as [|n IH]; intros w Hreg.
  - simpl. unfold set_trace. rewrite app_nil_r. by destruct w.
  - simpl. rewrite run_bind.
    assert (Hrun : handle_message ext_call c message w =
                   (set_trace (λ t, t ++ hello_events c interval) w, inr tt)).
    { unfold handle_message, handle_opcode, hash_key. munfold.
      rewrite Hop. simpl. rewrite Hd, Hi. simpl.
      rewrite Hreg.
      unfold set_trace. simpl. rewrite <- app_assoc. reflexivity. }
    rewrite Hrun, IH by exact Hreg.
    unfold set_trace. simpl. rewrite <- !app_assoc. reflexivity.
Qed.

Lemma every_hello_spawns_a_heartbeat_witness :
  read_loop quiet_ext 0 (replicate 2 hello_41250) fresh_session =
    (set_trace
       (λ t, t ++ concat (replicate 2 (hello_events 0 (VInt 41250))))
       fresh_session,
     inr tt).
Proof.
  apply (every_hello_spawns_a_heartbeat quiet_ext 2 0 hello_41250
           (VDict [("heartbeat_interval", VInt 41250)]) (VInt 41250)
           fresh_session);
    reflexivity.
Defined.

(** Handling an envelope writes nothing to the socket: whatever the
    envelope and the registries, the events that [handle_message] adds to
    the trace, the calls of registered functions among them, include no
    send.  A Hello only schedules the heartbeat task; what that task and
    the registered functions send on their own is not part of the call. *)
Theorem handling_an_envelope_sends_nothing ext_call (c : nat)
    (message : value) (w : world) :
  ∃ evs,
    trace (handle_message ext_call c message w).1 = trace w ++ evs ∧
    Forall (λ e, is_send e = false) evs.
Proof.
  destruct (not_send_handle_message ext_call c message w)
    as (evs & Hevs & Hall).
  exists evs. split; [exact Hevs|].
  eapply Forall_impl; [exact Hall|].
  intros e He. unfold not_send in He. by destruct (is_send e).
Qed.

(** Both registries see a dispatch: first the function registered for the
    event type is called on the payload [d], then the function registered
    for opcode 0 is called on the whole envelope. *)
Theorem dispatch_runs_event_then_opcode_handler ext_call (c : nat)
    (message t d s : value) (k : hkey) (f g : fid) (rf rg : value)
    (w : world) :
  subscript message "op" = inr (VInt opcodes.DISPATCH) →
  subscript message "s" = inr s →
  subscript message "t" = inr t →
  subscript message "d" = inr d →
  py_eq t (VStr "READY") = false →
  py_eq t (VStr "GUILD_CREATE") = false →
  to_key t = Some k →
  dispatch_registry w !! k = Some (Fn f) →
  message_registry w !! KInt opcodes.DISPATCH = Some (Fn g) →
  ext_call f d = inr rf →
  ext_call g message = inr rg →
  handle_message ext_call c message w =
    (set_trace (λ tr, tr ++ [EvCall f d; EvRet f rf;
                             EvCall g message; EvRet g rg]) w,
     inr tt).
Proof.
  intros Hop Hs Ht Hd Hr Hgc Hk Hf Hg Hcf Hcg.
  unfold handle_message, handle_opcode, handle_dispatch, handle_event,
    hash_key, call, call_fn.
  munfold. rewrite Hop. simpl. rewrite Hs, Ht, Hd, Hr, Hgc, Hk. simpl.
  rewrite Hf. simpl. rewrite Hcf. simpl.
  rewrite Hg. simpl. rewrite Hcg. simpl.
  unfold set_trace. simpl. rewrite <- !app_assoc. reflexivity.
Qed.

Lemma dispatch_runs_event_then_opcode_handler_witness :
  let d := VDict [("channel_id", VStr "C1")] in
  handle_message quiet_ext 0 typing_s5 dispatch_registered =
    (set_trace (λ tr, tr ++ [EvCall 7 d; EvRet 7 VNone;
                             EvCall 8 typing_s5; EvRet 8 VNone])
       dispatch_registered,
     inr tt).
Proof.
  apply (dispatch_runs_event_then_opcode_handler quiet_ext 0 typing_s5
           (VStr "TYPING_START") (VDict [("channel_id", VStr "C1")]) (VInt 5)
           (KStr "TYPING_START") 7%nat 8%nat VNone VNone dispatch_registered);
    reflexivity.
Defined.

(** ** The read loop and [start] *)

(** Reading a concatenation is reading its parts in turn. *)
Lemma read_loop_app ext_call (c : nat) (l1 l2 : list value) (w : world) :
  read_loop ext_call c (l1 ++ l2) w =
  (read_loop ext_call c l1 ≫= λ _, read_loop ext_call c l2) w.
Proof.
  revert w. induction l1 as [|m l1 IH]; intros w; [reflexivity|].
  simpl. rewrite !run_bind.
  destruct (handle_message ext_call c m w) as [w1 [e|[]]]; [reflexivity|].
  rewrite IH, run_bind. reflexivity.
Qed.

(** The read loop ends at the first envelope whose handling raises: the
    exception leaves the loop and the envelopes after it are never
    handled. *)
Theorem read_loop_stops_at_failure ext_call (c : nat) (l1 l2 : list value)
    (m : value) (e : exn) (w w1 w2 : world) :
  read_loop ext_call c l1 w = (w1, inr tt) →
  handle_message ext_call c m w1 = (w2, inl e) →
  read_loop ext_call c (l1 ++ m :: l2) w = (w2, inl e).
Proof.
  intros H1 Hm. rewrite read_loop_app, run_bind, H1. simpl.
  rewrite run_bind, Hm. reflexivity.
Qed.

Lemma read_loop_stops_at_failure_witness :
  read_loop quiet_ext 0
    ([hello_41250] ++ received 12 VNone VNone VNone :: [typing_s5])
    fresh_session =
  ((read_loop quiet_ext 0 [hello_41250] fresh_session).1,
   inl (NameError "op")).
Proof.
  apply (read_loop_stops_at_failure quiet_ext 0 [hello_41250] [typing_s5]
           (received 12 VNone VNone VNone) (NameError "op") fresh_session
           (read_loop quiet_ext 0 [hello_41250] fresh_session).1
           (read_loop quiet_ext 0 [hello_41250] fresh_session).1);
    reflexivity.
Defined.

(** When the gateway response has no [url], [start] raises before it
    identifies: nothing is sent and no envelope is read. *)
Theorem start_without_url_raises ext_call (c : nat) (response now : value)
    (inbox : list value) (e : exn) (w : world) :
  subscript response "url" = inl e →
  start ext_call c response now inbox w = (w, inl e).
Proof.
  intros Hurl. unfold start. munfold. rewrite Hurl. reflexivity.
Qed.

Lemma start_without_url_raises_witness :
  start quiet_ext 0 (VDict []) (VInt 0) [hello_41250] fresh_session =
  (fresh_session, inl (KeyError (VStr "url"))).
Proof.
  apply (start_without_url_raises quiet_ext 0 (VDict []) (VInt 0)
           [hello_41250] (KeyError (VStr "url")) fresh_session);
    reflexivity.
Defined.

(** ** Guilds *)

#[global] Instance guilds_kept_preorder : PreOrder guilds_kept.
Proof.
  split.
  - intros w. unfold guilds_kept. set_solver.
  - intros w1 w2 w3. unfold guilds_kept. set_solver.
Qed.

Lemma guilds_kept_modify f :
  (∀ w, dom (guilds w) ⊆ dom (guilds (f w))) →
  preserves guilds_kept (modify f).
Proof. intros Hf w. apply Hf. Qed.

Lemma guilds_kept_update_conn c f : preserves guilds_kept (update_conn c f).
Proof.
  unfold update_conn. repeat preserves_step.
  apply guilds_kept_modify. reflexivity.
Qed.

Ltac guilds_kept_leaf :=
  first [ apply guilds_kept_update_conn
        | apply guilds_kept_modify; intros ?; simpl;
          first [ reflexivity | rewrite dom_insert_L; set_solver ] ].

Lemma guilds_kept_match_loop ext_call self message ms i :
  preserves guilds_kept (match_loop ext_call self message i ms).
Proof.
  revert i. induction ms as [|m ms IH]; intros i; simpl.
  - preserves_step.
  - unfold call_fn. repeat preserves_step;
      first [ apply IH | guilds_kept_leaf ].
Qed.

Lemma guilds_kept_call ext_call f arg :
  preserves guilds_kept (call ext_call f arg).
Proof.
  destruct f; simpl;
    unfold call_fn, handle_message_create, buffer_message, buffer_pop0,
      buffer_append;
    repeat preserves_step;
    first [ apply guilds_kept_match_loop | guilds_kept_leaf ].
Qed.

Lemma guilds_kept_store_guilds gs : preserves guilds_kept (store_guilds gs).
Proof.
  induction gs as [|g gs IH]; simpl; repeat preserves_step;
    first [ apply IH | guilds_kept_leaf ].
Qed.

(** No envelope makes the session forget a guild: the ids stored in
    [guilds] before an envelope are stored after it, whether or not its
    handling raises. *)
Theorem guilds_never_shrink ext_call (c : nat) (message : value) (w : world) :
  dom (guilds w) ⊆ dom (guilds (handle_message ext_call c message w).1).
Proof.
  revert w. change (preserves guilds_kept (handle_message ext_call c message)).
  unfold handle_message, handle_opcode, handle_dispatch, handle_event,
    dispatch_ready, dispatch_guild_create, ensure_future_heartbeat.
  repeat preserves_step;
    first [ apply guilds_kept_store_guilds
          | apply guilds_kept_call
          | guilds_kept_leaf ].
Qed.

(** The loop over the guilds of a READY, run: every guild is stored under
    its id and the other ids keep their guild. *)
Lemma store_guilds_run (gs : list value) (ks : list hkey) :
  Forall2 guild_keyed gs ks →
  ∀ w, ∃ m',
    store_guilds gs w = (set_guilds (λ _, m') w, inr tt) ∧
    (∀ k, k ∉ ks → m' !! k = guilds w !! k) ∧
    (NoDup ks → ∀ i g k, gs !! i = Some g → ks !! i = Some k →
                m' !! k = Some g).
Proof.
  induction 1 as [|g k gs ks (gid & Hid & Hk) _ IH]; intros w.
  - exists (guilds w). split; [by destruct w|]. split; [done|].
    intros _ i g k Hg. by rewrite lookup_nil in Hg.
  - simpl. unfold hash_key. munfold. rewrite Hid, Hk. simpl.
    destruct (IH (set_guilds (<[k:=g]>) w)) as (m' & Hrun & Hout & Hin).
    exists m'. split; [rewrite Hrun; reflexivity|]. split.
    + intros k' Hk'. apply not_elem_of_cons in Hk' as [Hne Hk'].
      rewrite (Hout k' Hk'). simpl. apply lookup_insert_ne. congruence.
    + intros Hnd i g' k' Hg' Hk''. apply NoDup_cons in Hnd as [Hnotin Hnd].
      destruct i as [|i]; simpl in *.
      * simplify_eq. rewrite (Hout k' Hnotin). simpl. apply lookup_insert_eq.
      * eapply Hin; eassumption.
Qed.

(** A READY whose guilds all have an id that hashes, the ids distinct,
    stores each guild under its id, keeps the guilds stored under other
    ids, and prints the username and the number of guilds. *)
Theorem ready_stores_guilds_by_id ext_call (c : nat)
    (message ev u sid name : value) (gs : list value) (ks : list hkey)
    (x : connection) (w : world) :
  conns w !! c = Some x →
  subscript message "t" = inr (VStr "READY") →
  subscript message "d" = inr ev →
  subscript ev "user" = inr u →
  subscript ev "session_id" = inr sid →
  subscript ev "guilds" = inr (VList gs) →
  subscript u "username" = inr name →
  Forall2 guild_keyed gs ks →
  NoDup ks →
  dispatch_registry w !! KStr "READY" = None →
  ∃ w',
    handle_dispatch ext_call c message w = (w', inr tt) ∧
    (∀ i g k, gs !! i = Some g → ks !! i = Some k →
              guilds w' !! k = Some g) ∧
    (∀ k, k ∉ ks → guilds w' !! k = guilds w !! k) ∧
    trace w' =
      trace w ++
      (if truthy (session_id x) then [EvPrint WarnRepeatReady] else []) ++
      [EvPrint (MyUsername name); EvPrint (InGuilds (length gs))].
Proof.
  intros Hc Ht Hd Hu Hsid Hgs Hname Hkeys Hnd Hreg.
  unfold handle_dispatch, handle_event, dispatch_ready, hash_key. munfold.
  rewrite Ht, Hd. simpl. rewrite Hc.
  destruct (truthy (session_id x)); simpl;
    rewrite Hu, Hc; simpl; rewrite Hsid; simpl;
    rewrite list_lookup_insert_eq by (eapply lookup_lt_Some; eassumption);
    simpl; rewrite Hgs; simpl;
    match goal with |- context [ store_guilds gs ?w0 ] =>
      destruct (store_guilds_run gs ks Hkeys w0) as (m' & Hrun & Hout & Hin);
      rewrite Hrun
    end;
    simpl; rewrite list_insert_insert_eq;
    rewrite list_lookup_insert_eq by (eapply lookup_lt_Some; eassumption);
    simpl; rewrite Hname; simpl; rewrite Hreg;
    (eexists; split; [reflexivity|]); simpl; (split; [|split]);
    first [ by (intros i g k Hg Hk; eapply Hin; eassumption)
          | by (intros k Hk; rewrite (Hout k Hk))
          | by rewrite <- ?app_assoc ].
Qed.

Lemma ready_stores_guilds_by_id_witness :
  let gs := [stub_guild "G1" true; stub_guild "G2" false] in
  let ks := [KStr "G1"; KStr "G2"] in
  let x := Connection "T" VNone VNone true VNone in
  ∃ w',
    handle_dispatch quiet_ext 0 ready_two_guilds fresh_session
      = (w', inr tt) ∧
    (∀ i g k, gs !! i = Some g → ks !! i = Some k →
              guilds w' !! k = Some g) ∧
    (∀ k, k ∉ ks → guilds w' !! k = guilds fresh_session !! k) ∧
    trace w' =
      trace fresh_session ++
      (if truthy (session_id x) then [EvPrint WarnRepeatReady] else []) ++
      [EvPrint (MyUsername (VStr "falsebot")); EvPrint (InGuilds (length gs))].
Proof.
  apply (ready_stores_guilds_by_id quiet_ext 0 ready_two_guilds
           (VDict [("user", account "U0" "falsebot");
                   ("session_id", VStr "S1");
                   ("guilds", VList [stub_guild "G1" true;
                                     stub_guild "G2" false])])
           (account "U0" "falsebot") (VStr "S1") (VStr "falsebot")
           [stub_guild "G1" true; stub_guild "G2" false]
           [KStr "G1"; KStr "G2"]
           (Connection "T" VNone VNone true VNone) fresh_session);
    first [ reflexivity
          | by apply (bool_decide_unpack _)
          | repeat constructor; eexists; split; reflexivity ].
Defined.

(** READY is not all-or-nothing: a payload with a [user] but without a
    [session_id] raises [KeyError] after [user] has been replaced; the
    stored session id is the old one. *)
Theorem ready_is_not_atomic ext_call (c : nat) (message ev u : value)
    (e : exn) (x : connection) (w : world) :
  conns w !! c = Some x →
  subscript message "t" = inr (VStr "READY") →
  subscript message "d" = inr ev →
  subscript ev "user" = inr u →
  subscript ev "session_id" = inl e →
  let r := handle_dispatch ext_call c message w in
  r.2 = inl e ∧ conns r.1 !! c = Some (set_user u x).
Proof.
  intros Hc Ht Hd Hu Hsid r. subst r.
  unfold handle_dispatch, handle_event, dispatch_ready. munfold.
  rewrite Ht, Hd. simpl. rewrite Hc.
  destruct (truthy (session_id x)); simpl; rewrite Hu, Hc; simpl;
    rewrite Hsid; simpl; (split; [reflexivity|]);
    apply list_lookup_insert_eq; eapply lookup_lt_Some; eassumption.
Qed.

Lemma ready_is_not_atomic_witness :
  let r := handle_dispatch quiet_ext 0
             (received 0 (VDict [("user", account "U9" "other")]) (VInt 2)
                (VStr "READY"))
             ready_chat in
  r.2 = inl (KeyError (VStr "session_id")) ∧
  conns r.1 !! 0%nat = Some (set_user (account "U9" "other") ready_connection).
Proof.
  apply (ready_is_not_atomic quiet_ext 0
           (received 0 (VDict [("user", account "U9" "other")]) (VInt 2)
              (VStr "READY"))
           (VDict [("user", account "U9" "other")]) (account "U9" "other")
           (KeyError (VStr "session_id")) ready_connection ready_chat);
    reflexivity.
Defined.

Lemma guild_create_unavailable_stores_witness :
  handle_dispatch quiet_ext 0 (guild_create "G1" "guild") guilds_known =
  (set_guilds
     (<[KStr "G1" := VDict [("id", VStr "G1"); ("name", VStr "guild")]]>)
     guilds_known,
   inr tt).
Proof.
  apply (guild_create_unavailable_stores quiet_ext 0
           (guild_create "G1" "guild")
           (VDict [("id", VStr "G1"); ("name", VStr "guild")]) (VStr "G1")
           (stub_guild "G1" true) (VBool true) (KStr "G1") guilds_known);
    reflexivity.
Defined.

Lemma guild_create_available_raises_witness :
  handle_dispatch quiet_ext 0 (guild_create "G2" "guild") guilds_known =
  (guilds_known, inl (NameError "guild")).
Proof.
  apply (guild_create_available_raises quiet_ext 0
           (guild_create "G2" "guild")
           (VDict [("id", VStr "G2"); ("name", VStr "guild")]) (VStr "G2")
           (stub_guild "G2" false) (VBool false) (KStr "G2") guilds_known);
    reflexivity.
Defined.
